(** * Verification of the Arduino content-provider patcher

    The repository holds two Python scripts that rewrite one line of the
    JavaScript file [arduinoContentProvider.js] of the installed Arduino
    extension:

    - [scripts/patch-provider copy.py], the full script: it locates the
      extension directory, reads the target file, stops when the file is
      already patched, tries two known legacy phrasings in order, writes the
      rewritten text back and reports through its exit code;
    - [patch_provider.py], the minimal script: a single substitution on a
      fixed path.

    Python strings are modelled as [string], the file system as finite maps
    from paths to directory listings and to files, and the process (file
    system, standard output, the [open(..., 'w')] calls made so far) is
    threaded through a small state monad whose computations either return a
    value or leave through [sys.exit].

    What the model takes from the environment:
    - a text is the sequence of the bytes of its UTF-8 encoding; the
      literals searched for are ASCII, so that searching and replacing them
      byte-wise agrees with Python's code points;
    - [print] does not raise;
    - how a file reacts to being read and written (see [read_mode] and
      [write_mode]) is a property of the file, the same at every call;
    - the path of the home directory holds no character that [glob] reads
      as a wildcard. *)

From Stdlib Require Import Ascii String ZArith Lia.
From stdpp Require Import base option list strings gmap.

Local Open Scope Z_scope.

(** ** Python string operations *)

Module PyStr.

(** The double-quote character, written apart so that the literals below
    keep the shape they have in the scripts. *)
Definition dq : string := String (ascii_of_nat 34) EmptyString.

(** [s.startswith(p)] *)
Fixpoint startswith (s p : string) {struct p} : bool :=
  match p, s with
  | EmptyString, _ => true
  | String a p', String b s' => Ascii.eqb a b && startswith s' p'
  | String _ _, EmptyString => false
  end.

(** [sub in s] *)
Fixpoint contains (s sub : string) : bool :=
  startswith s sub ||
  match s with
  | EmptyString => false
  | String _ s' => contains s' sub
  end.

(** [s.find(sub)]: the lowest index at which [sub] starts, or [-1]. *)
Fixpoint find_from (i : nat) (s sub : string) : option nat :=
  if startswith s sub then Some i
  else match s with
       | EmptyString => None
       | String _ s' => find_from (S i) s' sub
       end.

Definition find (s sub : string) : Z :=
  match find_from 0 s sub with
  | Some i => Z.of_nat i
  | None => -1
  end.

(** [s[lo:hi]] for indices that are not negative. *)
Definition slice (s : string) (lo hi : Z) : string :=
  String.substring (Z.to_nat lo) (Z.to_nat (hi - lo)) s.

(** [s.replace(old, new)] scans from the left; at a position where [old]
    starts it emits [new] and resumes after that occurrence, so that the
    occurrences replaced do not overlap.  [skip] counts the characters of
    the current occurrence still to be passed over. *)
Fixpoint replace_go (old new : string) (skip : nat) (s : string) : string :=
  match s with
  | EmptyString => EmptyString
  | String c s' =>
      match skip with
      | S k => replace_go old new k s'
      | O =>
          if startswith s old
          then new +:+ replace_go old new (pred (String.length old)) s'
          else String c (replace_go old new 0 s')
      end
  end.

(** With an empty [old], Python puts [new] before every character and at
    the end. *)
Fixpoint interleave (new s : string) : string :=
  new +:+ match s with
          | EmptyString => EmptyString
          | String c s' => String c (interleave new s')
          end.

Definition replace (s old new : string) : string :=
  match old with
  | EmptyString => interleave new s
  | String _ _ => replace_go old new 0 s
  end.

(** Truth value of a string in a condition: only the empty string is
    false. *)
Definition truthy (s : string) : bool :=
  match s with
  | EmptyString => false
  | String _ _ => true
  end.

(** [s.endswith("/")] *)
Fixpoint endswith_sep (s : string) : bool :=
  match s with
  | EmptyString => false
  | String c EmptyString => Ascii.eqb c "/"
  | String _ s' => endswith_sep s'
  end.

(** [s.rstrip("/")] *)
Fixpoint rstrip_sep (s : string) : string :=
  match s with
  | EmptyString => EmptyString
  | String c s' =>
      match rstrip_sep s' with
      | EmptyString => if Ascii.eqb c "/" then EmptyString else String c EmptyString
      | r => String c r
      end
  end.

(** [s == "/" * len(s)] *)
Fixpoint all_sep (s : string) : bool :=
  match s with
  | EmptyString => true
  | String c s' => Ascii.eqb c "/" && all_sep s'
  end.

(** [sub] occurs in [s] at offset [String.length a]. *)
Definition occurs (sub s : string) : Prop :=
  ∃ a b, s = a +:+ sub +:+ b.

(** [s[1:]] *)
Definition tail (s : string) : string :=
  match s with
  | EmptyString => EmptyString
  | String _ s' => s'
  end.

(** A non-empty suffix of [u] is a prefix of [w]: an occurrence of [w]
    can start inside [u] and run past its end. *)
Definition overlapping (u w : string) : Prop :=
  ∃ x t r, t ≠ EmptyString ∧ u = x +:+ t ∧ w = t +:+ r.

Fixpoint overlaps (u w : string) : bool :=
  match u with
  | EmptyString => false
  | String _ u' => startswith w u || overlaps u' w
  end.

(** A string is bordered when one of its proper non-empty prefixes is also
    a suffix; two occurrences of an unbordered string never overlap. *)
Definition bordered (w : string) : Prop :=
  ∃ u v x, u ≠ EmptyString ∧ v ≠ EmptyString ∧ w = u +:+ v ∧ w = x +:+ u.

Definition borderedb (w : string) : bool :=
  match w with
  | EmptyString => false
  | String _ w' => overlaps w' w
  end.

End PyStr.

Import PyStr.

(** ** [os.path], [fnmatch] and [glob] on POSIX *)

Module OsPath.

(** [os.path.join(a, b)] *)
Definition join (a b : string) : string :=
  if startswith b "/" then b
  else if negb (truthy a) || endswith_sep a then a +:+ b
  else a +:+ "/" +:+ b.

(** Scan of [os.path.split]: [head] is the text up to and including the
    last separator seen so far, [tail] the text after it. *)
Fixpoint split_go (head tail p : string) : string * string :=
  match p with
  | EmptyString => (head, tail)
  | String c p' =>
      if Ascii.eqb c "/"
      then split_go (head +:+ tail +:+ "/") EmptyString p'
      else split_go head (tail +:+ String c EmptyString) p'
  end.

(** [os.path.split(p)]: trailing separators are stripped from the head
    unless the head consists of separators only. *)
Definition split (p : string) : string * string :=
  let '(head, tail) := split_go EmptyString EmptyString p in
  (if truthy head && negb (all_sep head) then rstrip_sep head else head, tail).

(** [os.path.expanduser("~")], given the home directory recorded for the
    user ([$HOME], or the password database entry when it is unset). *)
Definition expanduser_tilde (userhome : string) : string :=
  match rstrip_sep userhome with
  | EmptyString => "/"
  | h => h
  end.

End OsPath.

Module Fnmatch.

(** [fnmatch.fnmatchcase(name, pat)] for patterns made of ordinary
    characters, [?] and [*]; the patterns of the script hold no bracket
    expression. *)
Fixpoint fnmatch (pat name : string) : bool :=
  match pat with
  | EmptyString =>
      match name with EmptyString => true | String _ _ => false end
  | String p pat' =>
      if Ascii.eqb p "*" then
        (fix star (n : string) : bool :=
           fnmatch pat' n ||
           match n with
           | EmptyString => false
           | String _ n' => star n'
           end) name
      else
        match name with
        | EmptyString => false
        | String c name' =>
            (Ascii.eqb p "?" || Ascii.eqb p c) && fnmatch pat' name'
        end
  end.

(** A pattern that holds no wildcard. *)
Fixpoint literal (pat : string) : bool :=
  match pat with
  | EmptyString => true
  | String p pat' =>
      negb (Ascii.eqb p "*") && negb (Ascii.eqb p "?") && literal pat'
  end.

(** [glob._ishidden] *)
Definition ishidden (path : string) : bool := startswith path ".".

End Fnmatch.

(** ** The file system and the process *)

(** What [open(path, 'r').read()] does on a file: it yields the text, or it
    raises (permissions, an I/O fault, text that does not decode). *)
Inductive read_mode :=
  | Readable
  | ReadRaises (e : string).

(** What [open(path, 'w')] followed by [write] does on a file: it replaces
    the text; or [open] raises and the file is untouched; or [open] has
    truncated the file and [write] raises, which leaves [rest] on disk. *)
Inductive write_mode :=
  | Writable
  | OpenRaises (e : string)
  | FlushRaises (e rest : string).

Record file := File {
  data : string;
  on_read : read_mode;
  on_write : write_mode
}.

(** [dirs] maps the path of a directory to the names [os.listdir] returns
    for it, in that order; [files] maps the path of a regular file to the
    file. *)
Record filesystem := Filesystem {
  dirs : gmap string (list string);
  files : gmap string file
}.

(** [userhome] is the home directory of the user running the script,
    [stdout] holds the text of the [print] calls, oldest first, and
    [opened_w] the paths given to [open(..., 'w')], oldest first. *)
Record process := Process {
  userhome : string;
  fs : filesystem;
  stdout : list string;
  opened_w : list string
}.

(** A computation returns a value or leaves through [sys.exit]. *)
Inductive outcome (A : Type) :=
  | Done (a : A)
  | Exited (code : Z).
Arguments Done {A} a.
Arguments Exited {A} code.

Definition Py (A : Type) : Type := process → outcome A * process.

#[global] Instance Py_ret : MRet Py := λ A a p, (Done a, p).

#[global] Instance Py_bind : MBind Py := λ A B f m p,
  match m p with
  | (Done a, p') => f a p'
  | (Exited code, p') => (Exited code, p')
  end.

Module Sys.

(** [sys.exit(code)] *)
Definition exit {A : Type} (code : Z) : Py A := λ p, (Exited code, p).

(** [print(line)] *)
Definition print (line : string) : Py unit := λ p,
  (Done (),
   {| userhome := userhome p; fs := fs p;
      stdout := stdout p ++ [line]; opened_w := opened_w p |}).

End Sys.

Module Os.

(** [os.path.expanduser("~")] *)
Definition expanduser_tilde : Py string := λ p,
  (Done (OsPath.expanduser_tilde (userhome p)), p).

(** [os.path.isdir(path)] *)
Definition isdir (path : string) : Py bool := λ p,
  (Done (bool_decide (is_Some (dirs (fs p) !! path))), p).

(** [os.path.isfile(path)] *)
Definition isfile (path : string) : Py bool := λ p,
  (Done (bool_decide (is_Some (files (fs p) !! path))), p).

(** [os.listdir], with the empty list where [glob] swallows the error of
    a path that is no directory. *)
Definition listdir (f : filesystem) (path : string) : list string :=
  default [] (dirs f !! path).

(** [glob._glob1]: the names of [dirname] that match [pattern]; hidden
    names are skipped unless the pattern is itself hidden. *)
Definition glob1 (f : filesystem) (dirname pattern : string) : list string :=
  let names := listdir f dirname in
  let names :=
    if negb (Fnmatch.ishidden pattern)
    then filter (λ x, negb (Fnmatch.ishidden x)) names
    else names in
  filter (λ x, Fnmatch.fnmatch pattern x) names.

(** [glob.glob(pathname)] for a pathname whose last component holds the
    wildcards and whose directory part is taken literally. *)
Definition glob (pathname : string) : Py (list string) := λ p,
  let '(dirname, basename) := OsPath.split pathname in
  (Done (OsPath.join dirname <$> glob1 (fs p) dirname basename), p).

(** [with open(path, 'r') as f: content = f.read()], with the exception
    raised, if any, on the left. *)
Definition read_text (path : string) : Py (string + string) := λ p,
  (Done match files (fs p) !! path with
        | None => inl "[Errno 2] No such file or directory"
        | Some f =>
            match on_read f with
            | Readable => inr (data f)
            | ReadRaises e => inl e
            end
        end, p).

Definition set_data (f : file) (s : string) : file :=
  {| data := s; on_read := on_read f; on_write := on_write f |}.

(** The file system with [fl] stored at [path]. *)
Definition store (f : filesystem) (path : string) (fl : file) : filesystem :=
  {| dirs := dirs f; files := <[path := fl]> (files f) |}.

(** [with open(path, 'w') as f: f.write(text)], with the exception raised,
    if any, as the result.  A path that names no file yet is created. *)
Definition write_text (path text : string) : Py (option string) := λ p,
  let opened (f : filesystem) :=
    {| userhome := userhome p; fs := f; stdout := stdout p;
       opened_w := opened_w p ++ [path] |} in
  match files (fs p) !! path with
  | None =>
      (Done None, opened (store (fs p) path (File text Readable Writable)))
  | Some f =>
      match on_write f with
      | Writable => (Done None, opened (store (fs p) path (set_data f text)))
      | OpenRaises e => (Done (Some e), opened (fs p))
      | FlushRaises e rest =>
          (Done (Some e), opened (store (fs p) path (set_data f rest)))
      end
  end.

End Os.

(** ** The full script, [scripts/patch-provider copy.py] *)

Module Full.

(** Pattern 1: original unpatched code (older versions). *)
Definition old_line_v1 : string :=
  "var url = " +:+ dq +:+
  "${(yield vscode.env.asExternalUri(this._webserver.getEndpointUri(type))).toString()}?" +:+
  dq +:+ " +".

(** Pattern 2: alternative unpatched code (newer versions with different
    query string handling). *)
Definition old_line_v2 : string :=
  "var url = " +:+ dq +:+
  "${(yield vscode.env.asExternalUri(this._webserver.getEndpointUri(type))).toString()}" +:+
  dq +:+ "; url += (url.indexOf(" +:+ dq +:+ "?" +:+ dq +:+
  ") === -1 ? " +:+ dq +:+ "?" +:+ dq +:+
  " : String.fromCharCode(38)) +".

(** The patched replacements. *)
Definition new_line_v1 : string :=
  "var baseUrl = " +:+ dq +:+
  "${(yield vscode.env.asExternalUri(this._webserver.getEndpointUri(" +:+
  dq +:+ dq +:+ "))).toString()}" +:+ dq +:+
  "; if (baseUrl.slice(-1) !== " +:+ dq +:+ "/" +:+ dq +:+
  ") baseUrl += " +:+ dq +:+ "/" +:+ dq +:+ "; var url = baseUrl + " +:+
  dq +:+ "${type}?" +:+ dq +:+ " +".

Definition new_line_v2 : string :=
  "var baseUrl = " +:+ dq +:+
  "${(yield vscode.env.asExternalUri(this._webserver.getEndpointUri(" +:+
  dq +:+ dq +:+ "))).toString()}" +:+ dq +:+
  "; if (baseUrl.slice(-1) !== " +:+ dq +:+ "/" +:+ dq +:+
  ") baseUrl += " +:+ dq +:+ "/" +:+ dq +:+ "; var url = baseUrl + " +:+
  dq +:+ "${type}" +:+ dq +:+ "; url += (url.indexOf(" +:+ dq +:+ "?" +:+
  dq +:+ ") === -1 ? " +:+ dq +:+ "?" +:+ dq +:+
  " : String.fromCharCode(38)) +".

(** The literal whose presence means that the file is already patched. *)
Definition patched_marker : string :=
  "var baseUrl = " +:+ dq +:+
  "${(yield vscode.env.asExternalUri(this._webserver.getEndpointUri(" +:+
  dq +:+ dq +:+ "))).toString()}" +:+ dq.

(** The loop of [find_extension_path] over the candidate directories. *)
Fixpoint find_in (extension_dirs : list string) : Py (option string) :=
  match extension_dirs with
  | [] => mret None
  | ext_dir :: extension_dirs' =>
      is_dir ← Os.isdir ext_dir;
      if is_dir : bool then
        let pattern :=
          OsPath.join ext_dir "vscode-arduino.vscode-arduino-community*" in
        matches ← Os.glob pattern;
        match matches with
        | m :: _ => mret (Some m)
        | [] => find_in extension_dirs'
        end
      else find_in extension_dirs'
  end.

(** Find the Arduino extension installation directory. *)
Definition find_extension_path : Py (option string) :=
  home ← Os.expanduser_tilde;
  let extension_dirs :=
    [ OsPath.join home ".vscode-remote/extensions";
      OsPath.join home ".vscode-server/extensions" ] in
  find_in extension_dirs.

(** Truth value of a result that is [None] or a string. *)
Definition truthy_opt (o : option string) : bool :=
  match o with
  | None => false
  | Some s => truthy s
  end.

(** The diagnostic excerpt printed when no pattern is found. *)
Definition print_relevant_section (content : string) : Py unit :=
  if contains content "window.onload = function()" then
    let start := find content "window.onload = function()" in
    let end_ := find content "document.getElementById('frame').src = url;" in
    if negb (start =? -1) && negb (end_ =? -1) then
      Sys.print "Relevant section in file:";;
      Sys.print (slice content start (end_ + 50))
    else mret ()
  else mret ().

(** The path of the file to patch inside the extension directory. *)
Definition target_file (ext_path : string) : string :=
  OsPath.join ext_path "out/src/arduino/arduinoContentProvider.js".

(** The "try to patch" step: the old literals are looked for in order and
    the first that occurs is replaced; [None] when neither occurs. *)
Definition try_to_patch (content : string) : Py (option string) :=
  if contains content old_line_v1 then
    let new_content := replace content old_line_v1 new_line_v1 in
    Sys.print "Found pattern v1 (older extension version)";;
    mret (Some new_content)
  else if contains content old_line_v2 then
    let new_content := replace content old_line_v2 new_line_v2 in
    Sys.print "Found pattern v2 (newer extension version)";;
    mret (Some new_content)
  else mret None.

Definition main : Py unit :=
  ext_path ← find_extension_path;
  if negb (truthy_opt ext_path) then
    Sys.print "Arduino extension not found. Skipping patch.";;
    Sys.exit 0
  else
  let ext_path := default EmptyString ext_path in
  let target_file := target_file ext_path in
  is_file ← Os.isfile target_file;
  if negb is_file then
    Sys.print ("Target file not found at " +:+ target_file +:+
               ". Skipping patch.");;
    Sys.exit 0
  else
  r ← Os.read_text target_file;
  match r with
  | inl e =>
      Sys.print ("Error reading file: " +:+ e);;
      Sys.exit 1
  | inr content =>
      (* already patched? *)
      if contains content patched_marker then
        Sys.print "arduinoContentProvider.js is already patched.";;
        Sys.exit 0
      else
      new_content ← try_to_patch content;
      if truthy_opt new_content then
        w ← Os.write_text target_file (default EmptyString new_content);
        match w with
        | None =>
            Sys.print "Successfully patched arduinoContentProvider.js";;
            Sys.print "";;
            Sys.print "⚠️  IMPORTANT: Reload VS Code window for patch to take effect!";;
            Sys.print "   Press Ctrl+Shift+P → 'Developer: Reload Window'";;
            Sys.exit 2
        | Some e =>
            Sys.print ("Error writing patched file: " +:+ e);;
            Sys.exit 1
        end
      else
        Sys.print "Could not find target string to replace in arduinoContentProvider.js.";;
        Sys.print "The extension might have been updated to a new version.";;
        Sys.print "";;
        print_relevant_section content;;
        Sys.exit 1
  end.

End Full.

(** ** The minimal script, [patch_provider.py] *)

Module Minimal.

Definition file_path : string :=
  "/home/vscode/.vscode-remote/extensions/vscode-arduino.vscode-arduino-community-0.7.2-linux-x64/out/src/arduino/arduinoContentProvider.js".

Definition old_line : string :=
  "var url = " +:+ dq +:+
  "${(yield vscode.env.asExternalUri(this._webserver.getEndpointUri(type))).toString()}" +:+
  dq +:+ "; url += (url.indexOf(" +:+ dq +:+ "?" +:+ dq +:+
  ") === -1 ? " +:+ dq +:+ "?" +:+ dq +:+
  " : String.fromCharCode(38)) +".

Definition new_line : string :=
  "var baseUrl = " +:+ dq +:+
  "${(yield vscode.env.asExternalUri(this._webserver.getEndpointUri(" +:+
  dq +:+ dq +:+ "))).toString()}" +:+ dq +:+
  "; if (baseUrl.slice(-1) !== " +:+ dq +:+ "/" +:+ dq +:+
  ") baseUrl += " +:+ dq +:+ "/" +:+ dq +:+ "; var url = baseUrl + " +:+
  dq +:+ "${type}" +:+ dq +:+ "; url += (url.indexOf(" +:+ dq +:+ "?" +:+
  dq +:+ ") === -1 ? " +:+ dq +:+ "?" +:+ dq +:+
  " : String.fromCharCode(38)) +".

(** The substitution the script applies to the text it has read, when it
    applies one. *)
Definition new_content (content : string) : option string :=
  if contains content old_line
  then Some (replace content old_line new_line)
  else None.

(** The script has no handler: an exception raised by [open], [read] or
    [write] ends the interpreter with status 1. *)
Definition script : Py unit :=
  r ← Os.read_text file_path;
  match r with
  | inl _ => Sys.exit 1
  | inr content =>
      match new_content content with
      | Some new_content =>
          w ← Os.write_text file_path new_content;
          match w with
          | None => Sys.print "Successfully patched arduinoContentProvider.js"
          | Some _ => Sys.exit 1
          end
      | None => Sys.print "Could not find target string to replace"
      end
  end.

End Minimal.

(** ** Running a script as a process *)

(** The status with which the interpreter ends: that given to [sys.exit], or
    0 when the script runs to its end. *)
Definition exit_status {A : Type} (r : outcome A * process) : Z :=
  match r.1 with
  | Done _ => 0
  | Exited code => code
  end.

(** A process that has not printed nor opened anything yet. *)
Definition start (home : string) (f : filesystem) : process :=
  {| userhome := home; fs := f; stdout := []; opened_w := [] |}.

Definition run {A : Type} (script : Py A) (home : string) (f : filesystem)
  : outcome A * process :=
  script (start home f).

(** The text of the file at [path], if there is one. *)
Definition text_at (f : filesystem) (path : string) : option string :=
  data <$> files f !! path.

(** ** Notions used in the statements *)

(** A path that is not empty and does not end with a separator. *)
Definition plain_end (d : string) : Prop :=
  truthy d = true ∧ endswith_sep d = false.

(** The process [p] after it has printed [lines]. *)
Definition printed (p : process) (lines : list string) : process :=
  {| userhome := userhome p; fs := fs p;
     stdout := stdout p ++ lines; opened_w := opened_w p |}.

(** The name prefix of the directories that belong to the extension. *)
Definition extension_prefix : string :=
  "vscode-arduino.vscode-arduino-community".

(** The two candidate roots. *)
Definition remote_extensions (home : string) : string :=
  OsPath.join (OsPath.expanduser_tilde home) ".vscode-remote/extensions".

Definition server_extensions (home : string) : string :=
  OsPath.join (OsPath.expanduser_tilde home) ".vscode-server/extensions".

(** The paths of the entries of [dir] itself whose name starts with the
    prefix, in listing order. *)
Definition installed (f : filesystem) (dir : string) : list string :=
  (λ name, dir +:+ "/" +:+ name) <$>
  filter (λ name, startswith name extension_prefix) (Os.listdir f dir).

(** The first entry found, the remote root before the server root. *)
Definition located (home : string) (f : filesystem) : option string :=
  head (installed f (remote_extensions home) ++
        installed f (server_extensions home)).

(** The process [p] after it has printed [lines] and called
    [open(path, 'w')], which left the file system [f]. *)
Definition written (p : process) (lines : list string) (path : string)
    (f : filesystem) : process :=
  {| userhome := userhome p; fs := f;
     stdout := stdout p ++ lines; opened_w := opened_w p ++ [path] |}.

(** The lines printed after a successful write. *)
Definition success_lines : list string :=
  [ "Successfully patched arduinoContentProvider.js"; "";
    "⚠️  IMPORTANT: Reload VS Code window for patch to take effect!";
    "   Press Ctrl+Shift+P → 'Developer: Reload Window'" ].

(** The lines that report that no pattern was found, before the optional
    excerpt. *)
Definition mismatch_lines : list string :=
  [ "Could not find target string to replace in arduinoContentProvider.js.";
    "The extension might have been updated to a new version."; "" ].

(** [rule_applied content new_content msg]: the first rule whose old
    literal occurs in [content] turns it into [new_content], and [msg] is
    the line that reports the rule. *)
Inductive rule_applied (content : string) : string → string → Prop :=
  | rule_v1 :
      contains content Full.old_line_v1 = true →
      rule_applied content
        (replace content Full.old_line_v1 Full.new_line_v1)
        "Found pattern v1 (older extension version)"
  | rule_v2 :
      contains content Full.old_line_v1 = false →
      contains content Full.old_line_v2 = true →
      rule_applied content
        (replace content Full.old_line_v2 Full.new_line_v2)
        "Found pattern v2 (newer extension version)".

(** The runs of the full script from the process [p], one constructor per
    way through [main]: the status given to [sys.exit] and the process
    left. *)
Inductive full_run (p : process) : outcome unit * process → Prop :=
  | run_not_found :
      located (userhome p) (fs p) = None →
      full_run p
        (Exited 0, printed p ["Arduino extension not found. Skipping patch."])
  | run_target_missing ext :
      located (userhome p) (fs p) = Some ext →
      files (fs p) !! Full.target_file ext = None →
      full_run p
        (Exited 0,
         printed p ["Target file not found at " +:+ Full.target_file ext +:+
                    ". Skipping patch."])
  | run_read_error ext fl e :
      located (userhome p) (fs p) = Some ext →
      files (fs p) !! Full.target_file ext = Some fl →
      on_read fl = ReadRaises e →
      full_run p (Exited 1, printed p ["Error reading file: " +:+ e])
  | run_already_patched ext fl :
      located (userhome p) (fs p) = Some ext →
      files (fs p) !! Full.target_file ext = Some fl →
      on_read fl = Readable →
      contains (data fl) Full.patched_marker = true →
      full_run p
        (Exited 0, printed p ["arduinoContentProvider.js is already patched."])
  | run_mismatch ext fl lines :
      located (userhome p) (fs p) = Some ext →
      files (fs p) !! Full.target_file ext = Some fl →
      on_read fl = Readable →
      contains (data fl) Full.patched_marker = false →
      contains (data fl) Full.old_line_v1 = false →
      contains (data fl) Full.old_line_v2 = false →
      full_run p (Exited 1, printed p (mismatch_lines ++ lines))
  | run_patched ext fl new_content msg :
      located (userhome p) (fs p) = Some ext →
      files (fs p) !! Full.target_file ext = Some fl →
      on_read fl = Readable →
      contains (data fl) Full.patched_marker = false →
      rule_applied (data fl) new_content msg →
      on_write fl = Writable →
      full_run p
        (Exited 2,
         written p (msg :: success_lines) (Full.target_file ext)
           (Os.store (fs p) (Full.target_file ext)
              (Os.set_data fl new_content)))
  | run_open_raises ext fl new_content msg e :
      located (userhome p) (fs p) = Some ext →
      files (fs p) !! Full.target_file ext = Some fl →
      on_read fl = Readable →
      contains (data fl) Full.patched_marker = false →
      rule_applied (data fl) new_content msg →
      on_write fl = OpenRaises e →
      full_run p
        (Exited 1,
         written p [msg; "Error writing patched file: " +:+ e]
           (Full.target_file ext) (fs p))
  | run_flush_raises ext fl new_content msg e rest :
      located (userhome p) (fs p) = Some ext →
      files (fs p) !! Full.target_file ext = Some fl →
      on_read fl = Readable →
      contains (data fl) Full.patched_marker = false →
      rule_applied (data fl) new_content msg →
      on_write fl = FlushRaises e rest →
      full_run p
        (Exited 1,
         written p [msg; "Error writing patched file: " +:+ e]
           (Full.target_file ext)
           (Os.store (fs p) (Full.target_file ext) (Os.set_data fl rest))).

(** ** A sample installation, for the concrete runs *)

Definition sample_home : string := "/home/vscode".

Definition sample_root : string := "/home/vscode/.vscode-remote/extensions".

Definition sample_name : string :=
  "vscode-arduino.vscode-arduino-community-0.7.2-linux-x64".

Definition sample_ext : string := sample_root +:+ "/" +:+ sample_name.

(** The extension installed under the remote root, with a target file that
    holds [content] and can be read and written. *)
Definition sample_fs (content : string) : filesystem :=
  {| dirs := {[ sample_root := [sample_name] ]};
     files := {[ Full.target_file sample_ext := File content Readable Writable ]} |}.

(** A file system with no directory and no file. *)
Definition empty_fs : filesystem := {| dirs := ∅; files := ∅ |}.

(** A content that holds neither a legacy line nor the marker. *)
Definition plain_content : string := "var url = 1;".



(** A content that holds both legacy lines. *)
Definition both_lines : string :=
  Full.old_line_v1 +:+ ";" +:+ Full.old_line_v2.

(** ** Notions used in the further properties *)

(** The two texts between which [print_relevant_section] cuts its
    excerpt. *)
Definition onload_anchor : string := "window.onload = function()".

Definition frame_anchor : string :=
  "document.getElementById('frame').src = url;".

(** The file system after [n] runs of the full script in a row. *)
Fixpoint fs_after (n : nat) (home : string) (f : filesystem) : filesystem :=
  match n with
  | O => f
  | S n' => fs (run Full.main home (fs_after n' home f)).2
  end.



(** * Properties *)

#[local] Arguments String.append !_ _ : simpl nomatch.

(** ** The string operations on small inputs *)

Example replace_ex1 : PyStr.replace "abcabcab" "abc" "x" = "xxab".
Proof. reflexivity. Qed.

Example replace_ex2 : PyStr.replace "aaaa" "aa" "b" = "bb".
Proof. reflexivity. Qed.

Example replace_ex3 : PyStr.replace "aaa" "aa" "ab" = "aba".
Proof. reflexivity. Qed.

Example replace_ex4 : PyStr.replace "abc" "" "-" = "-a-b-c-".
Proof. reflexivity. Qed.

Example find_ex1 : PyStr.find "hello world" "o w" = 4.
Proof. reflexivity. Qed.

Example find_ex2 : PyStr.find "hello" "z" = -1.
Proof. reflexivity. Qed.

Example slice_ex1 : PyStr.slice "hello world" 3 8 = "lo wo".
Proof. reflexivity. Qed.

Example slice_ex2 : PyStr.slice "hello" 3 60 = "lo".
Proof. reflexivity. Qed.

Example slice_ex3 : PyStr.slice "hello" 4 2 = "".
Proof. reflexivity. Qed.

(** ** The path operations and the scripts on small inputs *)

Example join_ex1 :
  OsPath.join "/root/" ".vscode-remote/extensions"
  = "/root/.vscode-remote/extensions".
Proof. reflexivity. Qed.

Example join_ex2 : OsPath.join "/root" "/abs" = "/abs".
Proof. reflexivity. Qed.

Example join_ex3 : OsPath.join "" "a" = "a".
Proof. reflexivity. Qed.

Example split_ex1 : OsPath.split "/a/b/c*" = ("/a/b", "c*").
Proof. reflexivity. Qed.

Example split_ex2 : OsPath.split "//x" = ("//", "x").
Proof. reflexivity. Qed.

Example split_ex3 : OsPath.split "/a//b" = ("/a", "b").
Proof. reflexivity. Qed.

Example expanduser_ex1 : OsPath.expanduser_tilde "/home/u//" = "/home/u".
Proof. reflexivity. Qed.

Example expanduser_ex2 : OsPath.expanduser_tilde "" = "/".
Proof. reflexivity. Qed.

Example fnmatch_ex1 : Fnmatch.fnmatch "a*c?" "abbbcd" = true.
Proof. reflexivity. Qed.

Example fnmatch_ex2 : Fnmatch.fnmatch "a*c?" "abbbc" = false.
Proof. reflexivity. Qed.

(** Hidden names and names that only contain the prefix are left out; the
    listing order is kept; a match may be any entry of the directory. *)
Example glob_ex1 :
  (run (Os.glob "/x/vscode-arduino.vscode-arduino-community*") "/root"
     {| dirs := {[ "/x" := [ "vscode-arduino.vscode-arduino-community-0.7.2";
                             "other";
                             ".vscode-arduino.vscode-arduino-community";
                             "vscode-arduino.vscode-arduino-community";
                             "my-vscode-arduino.vscode-arduino-community" ] ]};
        files := ∅ |}).1
  = Done [ "/x/vscode-arduino.vscode-arduino-community-0.7.2";
           "/x/vscode-arduino.vscode-arduino-community" ].
Proof. vm_compute. reflexivity. Qed.

Example main_ex_patched :
  let r := run Full.main sample_home (sample_fs both_lines) in
  exit_status r = 2 ∧
  opened_w r.2 = [Full.target_file sample_ext] ∧
  stdout r.2 = "Found pattern v1 (older extension version)" :: success_lines ∧
  text_at (fs r.2) (Full.target_file sample_ext)
  = Some (Full.new_line_v1 +:+ ";" +:+ Full.old_line_v2).
Proof. vm_compute. split_and!; reflexivity. Qed.

Example main_ex_not_found :
  run Full.main sample_home empty_fs
  = (Exited 0,
     printed (start sample_home empty_fs)
       ["Arduino extension not found. Skipping patch."]).
Proof. vm_compute. reflexivity. Qed.

Example minimal_ex_patched :
  let r := run Minimal.script sample_home (sample_fs both_lines) in
  exit_status r = 0 ∧
  text_at (fs r.2) Minimal.file_path
  = Some (Full.old_line_v1 +:+ ";" +:+ Full.new_line_v2).
Proof. vm_compute. split_and!; reflexivity. Qed.

(** ** Strings: concatenation *)

Section StringFacts.

Implicit Types a b s p q r u v w sub old new : string.

Lemma sapp_nil_r s : s +:+ "" = s.
Proof. induction s as [|x s IH]; simpl; [done | by rewrite IH]. Qed.

Lemma sapp_assoc a b (c : string) : (a +:+ b) +:+ c = a +:+ (b +:+ c).
Proof. induction a as [|x a IH]; simpl; [done | by rewrite IH]. Qed.

Lemma slength_app a b :
  String.length (a +:+ b) = (String.length a + String.length b)%nat.
Proof. induction a as [|x a IH]; simpl; [done | by rewrite IH]. Qed.

Lemma sapp_eq_nil a b : a +:+ b = "" → a = "" ∧ b = "".
Proof. destruct a; simpl; [done | discriminate]. Qed.

Lemma slength_zero s : String.length s = 0%nat → s = "".
Proof. by destruct s. Qed.

(** Two factorisations of one string: the shorter left factor is a prefix
    of the longer one. *)
Lemma sapp_eq_app a b (c d : string) :
  a +:+ b = c +:+ d →
  (∃ e, c = a +:+ e ∧ b = e +:+ d) ∨ (∃ e, a = c +:+ e ∧ d = e +:+ b).
Proof.
  revert c. induction a as [|x a IH]; intros c H; simpl in *.
  - left. by exists c.
  - destruct c as [|y c]; simpl in *.
    + right. exists (String x a). by rewrite <- H.
    + injection H as -> H. destruct (IH _ H) as [[e [-> ->]]|[e [-> ->]]].
      * left. by exists e.
      * right. by exists e.
Qed.

Lemma sapp_eq_app_le a b (c d : string) :
  a +:+ b = c +:+ d → (String.length a ≤ String.length c)%nat →
  ∃ e, c = a +:+ e ∧ b = e +:+ d.
Proof.
  intros H Hle. destruct (sapp_eq_app _ _ _ _ H) as [?|[e [-> ->]]]; [done|].
  rewrite slength_app in Hle.
  assert (e = "") as -> by (apply slength_zero; lia).
  exists "". by rewrite !sapp_nil_r.
Qed.

(** *** [startswith] and [in] *)

Lemma startswith_app p r : startswith (p +:+ r) p = true.
Proof.
  induction p as [|x p IH]; simpl; [done|].
  by rewrite Ascii.eqb_refl, IH.
Qed.

Lemma startswith_inv s p : startswith s p = true → ∃ r, s = p +:+ r.
Proof.
  revert s. induction p as [|x p IH]; intros s H; simpl in *.
  - by exists s.
  - destruct s as [|y s]; [done|].
    apply andb_prop in H as [Hxy H]. apply Ascii.eqb_eq in Hxy as ->.
    destruct (IH _ H) as [r ->]. by exists r.
Qed.

Lemma startswith_nil s : startswith s "" = true.
Proof. by destruct s. Qed.

Lemma occurs_here sub r : occurs sub (sub +:+ r).
Proof. by exists "", r. Qed.

Lemma occurs_cons x sub s : occurs sub s → occurs sub (String x s).
Proof. intros (a & b & ->). by exists (String x a), b. Qed.

Lemma occurs_app_l sub a s : occurs sub s → occurs sub (a +:+ s).
Proof.
  intros (u & v & ->). exists (a +:+ u), v. by rewrite sapp_assoc.
Qed.

Lemma occurs_app_r sub s b : occurs sub s → occurs sub (s +:+ b).
Proof.
  intros (u & v & ->). exists u, (v +:+ b). by rewrite !sapp_assoc.
Qed.

Lemma occurs_trans a b (c : string) : occurs a b → occurs b c → occurs a c.
Proof.
  intros Hab (u & v & ->). by apply occurs_app_l, occurs_app_r.
Qed.

Lemma occurs_cons_inv x sub s :
  occurs sub (String x s) → startswith (String x s) sub = true ∨ occurs sub s.
Proof.
  intros ([|y a] & b & H); simpl in H.
  - left. rewrite H. apply startswith_app.
  - right. injection H as _ ->. by exists a, b.
Qed.

Lemma contains_occurs s sub : contains s sub = true ↔ occurs sub s.
Proof.
  split.
  - induction s as [|x s IH]; simpl; intros H.
    + rewrite orb_false_r in H.
      apply startswith_inv in H as [r ->]. apply occurs_here.
    + apply orb_prop in H as [H|H].
      * apply startswith_inv in H as [r ->]. apply occurs_here.
      * by apply occurs_cons, IH.
  - induction s as [|x s IH]; intros H.
    + destruct H as (a & b & H). symmetry in H.
      apply sapp_eq_nil in H as [-> H]. apply sapp_eq_nil in H as [-> _].
      done.
    + simpl. apply orb_true_iff.
      destruct (occurs_cons_inv _ _ _ H) as [?|?]; [by left | right; auto].
Qed.

Lemma contains_false s sub : contains s sub = false ↔ ¬ occurs sub s.
Proof.
  rewrite <- contains_occurs. by destruct (contains s sub).
Qed.

Lemma contains_trans a b (c : string) :
  contains b a = true → contains c b = true → contains c a = true.
Proof. rewrite !contains_occurs. apply occurs_trans. Qed.

(** *** [replace] *)

Lemma replace_go_skip old new x r :
  replace_go old new (String.length x) (x +:+ r) = replace_go old new 0 r.
Proof. induction x as [|c x IH]; simpl; [done | apply IH]. Qed.

Lemma replace_nil old new : old ≠ "" → replace "" old new = "".
Proof. by destruct old. Qed.

Lemma occurs_nil s : occurs "" s.
Proof. by exists "", s. Qed.

Lemma replace_hit old new r :
  old ≠ "" → replace (old +:+ r) old new = new +:+ replace r old new.
Proof.
  destruct old as [|o old']; [done|]. intros _. unfold replace.
  change (String o old' +:+ r) with (String o (old' +:+ r)).
  cbn [replace_go].
  change (String o (old' +:+ r)) with (String o old' +:+ r).
  rewrite startswith_app.
  change (pred (String.length (String o old'))) with (String.length old').
  by rewrite replace_go_skip.
Qed.

Lemma replace_miss old new c s :
  startswith (String c s) old = false →
  replace (String c s) old new = String c (replace s old new).
Proof.
  intros H. destruct old as [|o old']; [done|]. unfold replace.
  cbn [replace_go]. by rewrite H.
Qed.

Lemma replace_absent old new s :
  ¬ occurs old s → replace s old new = s.
Proof.
  intros H.
  assert (old ≠ "") as Hne by (intros ->; apply H, occurs_nil).
  induction s as [|c s IH].
  - by apply replace_nil.
  - rewrite replace_miss.
    + rewrite IH; [done|]. intros Ho. by apply H, occurs_cons.
    + destruct (startswith (String c s) old) eqn:E; [|done].
      apply startswith_inv in E as [r E]. destruct H. rewrite E.
      apply occurs_here.
Qed.

Lemma replace_present old new s :
  old ≠ "" → occurs old s → occurs new (replace s old new).
Proof.
  intros Hne. induction s as [|c s IH]; intros H.
  - destruct H as (a & b & H). symmetry in H.
    apply sapp_eq_nil in H as [_ H]. by apply sapp_eq_nil in H as [-> _].
  - destruct (startswith (String c s) old) eqn:E.
    + apply startswith_inv in E as [r ->]. rewrite replace_hit by done.
      apply occurs_here.
    + rewrite replace_miss by done. apply occurs_cons, IH.
      destruct (occurs_cons_inv _ _ _ H) as [E'|?]; [congruence | done].
Qed.

(** *** Overlaps and borders *)

Lemma overlaps_spec u w : overlaps u w = true ↔ overlapping u w.
Proof.
  split.
  - induction u as [|c u IH]; cbn [overlaps]; [done|]. intros H.
    apply orb_prop in H as [H|H].
    + apply startswith_inv in H as [r H]. by exists "", (String c u), r.
    + destruct (IH H) as (x & t & r & ? & -> & ->).
      by exists (String c x), t, r.
  - induction u as [|c u IH]; intros (x & t & r & Ht & Hu & Hw).
    + symmetry in Hu. apply sapp_eq_nil in Hu as [_ ->]. done.
    + cbn [overlaps]. apply orb_true_iff. destruct x as [|d x]; simpl in Hu.
      * left. rewrite Hu, Hw. apply startswith_app.
      * right. injection Hu as _ ->. apply IH. by exists x, t, r.
Qed.

Lemma borderedb_spec w : borderedb w = true ↔ bordered w.
Proof.
  destruct w as [|c w]; cbn [borderedb].
  - split; [done|]. intros (u & v & x & Hu & _ & H & _). symmetry in H.
    by apply sapp_eq_nil in H as [-> _].
  - rewrite overlaps_spec. split.
    + intros (x & t & r & Ht & -> & Hw).
      exists t, r, (String c x). split_and!; [done| |done|done].
      intros ->. rewrite sapp_nil_r in Hw.
      assert (String.length (String c (x +:+ t)) = String.length t) as Hl
        by (by rewrite Hw at 1).
      simpl in Hl. rewrite slength_app in Hl. lia.
    + intros (u & v & x & Hu & Hv & H1 & H2).
      destruct x as [|d x]; simpl in H2.
      * assert (String.length u = String.length (u +:+ v)) as Hl
          by (by rewrite <- H1, H2 at 1).
        rewrite slength_app in Hl. destruct v; [done|simpl in Hl; lia].
      * injection H2 as _ ->. by exists x, u, v.
Qed.

Lemma unbordered_by_computation w : borderedb w = false → ¬ bordered w.
Proof. rewrite <- borderedb_spec. by intros ->. Qed.

Lemma replace_self old new : old ≠ "" → replace old old new = new.
Proof.
  intros Hne. rewrite <- (sapp_nil_r old) at 1.
  by rewrite replace_hit, replace_nil, sapp_nil_r.
Qed.

(** *** Every occurrence is replaced *)

(** The scan replaces the leftmost occurrence and goes on after it. *)
Lemma replace_first old new s :
  old ≠ "" → occurs old s →
  ∃ x r, s = x +:+ old +:+ r ∧ ¬ occurs old x ∧
         replace s old new = x +:+ new +:+ replace r old new.
Proof.
  intros Hne. induction s as [|c s IH]; intros H.
  - destruct H as (a & b & H). symmetry in H.
    apply sapp_eq_nil in H as [_ H]. by apply sapp_eq_nil in H as [-> _].
  - destruct (startswith (String c s) old) eqn:E.
    + apply startswith_inv in E as [r ->]. exists "", r. split_and!.
      * done.
      * intros (a & b & Hab). symmetry in Hab.
        apply sapp_eq_nil in Hab as [_ Hab].
        by apply sapp_eq_nil in Hab as [-> _].
      * by apply replace_hit.
    + destruct (occurs_cons_inv _ _ _ H) as [E'|Hs]; [congruence|].
      destruct (IH Hs) as (x & r & -> & Hx & Hr).
      exists (String c x), r. split_and!.
      * done.
      * intros Hcx. destruct (occurs_cons_inv _ _ _ Hcx) as [E'|?]; [|done].
        apply startswith_inv in E' as [r' E'].
        change (String c (x +:+ old +:+ r)) with (String c x +:+ old +:+ r) in E.
        rewrite E', sapp_assoc, startswith_app in E. done.
      * rewrite replace_miss by done. by rewrite Hr.
Qed.

(** For an unbordered [old], an occurrence of [old] between [x] and [y] is
    replaced whatever [x] and [y] hold: no other occurrence overlaps it. *)
Lemma replace_app_unbordered old new x y :
  old ≠ "" → ¬ bordered old →
  replace (x +:+ old +:+ y) old new
  = replace x old new +:+ new +:+ replace y old new.
Proof.
  intros Hne Hub.
  remember (String.length x) as n eqn:Hn. revert x Hn.
  induction n as [n IH] using lt_wf_ind. intros x Hn.
  destruct x as [|c x].
  - rewrite replace_nil by done. simpl. by apply replace_hit.
  - destruct (startswith (String c x +:+ old +:+ y) old) eqn:E.
    + apply startswith_inv in E as [r E].
      destruct (sapp_eq_app _ _ _ _ E) as [[e [He Hr]]|[e [He Hr]]].
      * (* the occurrence found runs past the end of [x] *)
        destruct e as [|d e].
        { rewrite sapp_nil_r in He. rewrite <- He.
          rewrite (replace_self old new) by done.
          by rewrite !replace_hit. }
        symmetry in Hr.
        destruct (sapp_eq_app_le _ _ _ _ Hr) as [e' [He' _]].
        { rewrite He, slength_app. simpl. lia. }
        destruct Hub. exists (String d e), e', (String c x).
        split_and!; [done| |done|done].
        intros ->. rewrite sapp_nil_r in He'.
        assert (String.length old = String.length (String d e)) as Hl
          by (by rewrite He' at 1).
        rewrite He, slength_app in Hl. simpl in Hl. lia.
      * (* the occurrence found lies inside [x] *)
        rewrite He, !sapp_assoc, !replace_hit by done.
        rewrite sapp_assoc. f_equal.
        apply (IH (String.length e)); [|done].
        assert (String.length (String c x) = String.length (old +:+ e)) as Hl
          by (by rewrite He).
        rewrite slength_app in Hl. destruct old; [done|]. simpl in *. lia.
    + change (String c x +:+ old +:+ y) with (String c (x +:+ old +:+ y)) in *.
      rewrite replace_miss by done.
      rewrite (IH (String.length x)); [|simpl in Hn; lia|done].
      rewrite replace_miss; [done|].
      destruct (startswith (String c x) old) eqn:E'; [|done].
      apply startswith_inv in E' as [r E'].
      change (String c (x +:+ old +:+ y)) with (String c x +:+ old +:+ y) in E.
      rewrite E', sapp_assoc, startswith_app in E. done.
Qed.

(** An occurrence in a concatenation lies in one of the two parts or
    straddles the seam. *)
Lemma occurs_app_cases sub a b :
  occurs sub (a +:+ b) →
  occurs sub a ∨ occurs sub b ∨
  ∃ t1 t2 u v, t1 ≠ "" ∧ t2 ≠ "" ∧ sub = t1 +:+ t2 ∧
               a = u +:+ t1 ∧ b = t2 +:+ v.
Proof.
  intros (u & v & H). symmetry in H.
  destruct (sapp_eq_app _ _ _ _ H) as [[e [-> He]]|[e [-> ->]]].
  - destruct (sapp_eq_app _ _ _ _ He) as [[e' [-> ->]]|[e' [-> ->]]].
    + left. by exists u, e'.
    + destruct e as [|c e].
      * right; left. simpl. by exists "", v.
      * destruct e' as [|c' e'].
        { left. rewrite sapp_nil_r. exists u, "". by rewrite sapp_nil_r. }
        right; right. by exists (String c e), (String c' e'), u, v.
  - right; left. by exists e, v.
Qed.

(** When [old] neither occurs in [new] nor overlaps it on either side, and
    [new] does not occur in [old], no occurrence of [old] is left behind,
    nor does the replacement create one. *)
Lemma replace_leaves_none old new s :
  old ≠ "" →
  contains new old = false →
  contains old new = false →
  overlaps new old = false →
  overlaps (tail old) new = false →
  ¬ occurs old (replace s old new).
Proof.
  intros Hne H1 H4 H3 H2.
  apply contains_false in H1, H4.
  assert (¬ overlapping new old) as H3'
    by (rewrite <- overlaps_spec; by rewrite H3).
  assert (¬ overlapping (tail old) new) as H2'
    by (rewrite <- overlaps_spec; by rewrite H2).
  clear H2 H3.
  remember (String.length s) as n eqn:Hn. revert s Hn.
  induction n as [n IH] using lt_wf_ind. intros s Hn.
  destruct (contains s old) eqn:E.
  - apply contains_occurs in E.
    destruct (replace_first old new s Hne E) as (x & r & -> & Hx & ->).
    assert (¬ occurs old (replace r old new)) as HR.
    { apply (IH (String.length r)); [|done].
      rewrite Hn, !slength_app. destruct old; [done|]. simpl. lia. }
    intros Ho.
    apply occurs_app_cases in Ho
      as [?|[Ho|(t1 & t2 & u & v & Ht1 & Ht2 & Hold & _ & Hv)]]; [done| |].
    + apply occurs_app_cases in Ho
        as [?|[?|(t1 & t2 & u & v & Ht1 & Ht2 & Hold & Hu & _)]];
        [done|done|].
      apply H3'. by exists u, t1, t2.
    + destruct (sapp_eq_app _ _ _ _ Hv) as [[e [He _]]|[e [Hnew _]]].
      * apply H4. rewrite Hold, He. by exists t1, e.
      * apply H2'. destruct t1 as [|c t1]; [done|]. rewrite Hold. simpl.
        by exists t1, t2, e.
  - apply contains_false in E. by rewrite replace_absent.
Qed.

End StringFacts.

(** ** Paths and globbing *)

Section PathFacts.

Implicit Types a b d h t name pat lit : string.

Lemma endswith_sep_app_plain a b : plain_end b → plain_end (a +:+ b).
Proof.
  intros [Ht He]. induction a as [|c a [IHt IHe]]; [done|].
  split; [done|]. simpl.
  by destruct (a +:+ b).
Qed.

Lemma rstrip_sep_id d : endswith_sep d = false → rstrip_sep d = d.
Proof.
  induction d as [|c d IH]; [done|]. simpl. destruct d as [|c' d].
  - simpl. by intros ->.
  - intros H. rewrite (IH H). done.
Qed.

Lemma rstrip_sep_app_sep d : rstrip_sep (d +:+ "/") = rstrip_sep d.
Proof. induction d as [|c d IH]; [done|]. simpl. by rewrite IH. Qed.

Lemma all_sep_plain d : plain_end d → all_sep d = false.
Proof.
  intros [Ht He]. induction d as [|c d IH]; [done|]. simpl in *.
  destruct d as [|c' d].
  - by rewrite He.
  - rewrite IH by done. apply andb_false_r.
Qed.

Lemma all_sep_app a b : all_sep (a +:+ b) = all_sep a && all_sep b.
Proof.
  induction a as [|c a IH]; [done|]. simpl. by rewrite IH, andb_assoc.
Qed.

Lemma truthy_app_r a b : truthy b = true → truthy (a +:+ b) = true.
Proof. by destruct a, b. Qed.

(** *** [os.path.join] *)

Lemma join_plain d b :
  plain_end d → startswith b "/" = false →
  OsPath.join d b = d +:+ "/" +:+ b.
Proof. intros [Ht He] Hb. unfold OsPath.join. by rewrite Hb, Ht, He. Qed.

Lemma join_relative_app h b :
  startswith b "/" = false → ∃ x, OsPath.join h b = x +:+ b.
Proof.
  intros Hb. unfold OsPath.join. rewrite Hb.
  destruct (negb (truthy h) || endswith_sep h).
  - by exists h.
  - exists (h +:+ "/"). by rewrite sapp_assoc.
Qed.

(** *** [os.path.split] *)

Lemma split_go_app h t a b :
  OsPath.split_go h t (a +:+ b)
  = OsPath.split_go (OsPath.split_go h t a).1 (OsPath.split_go h t a).2 b.
Proof.
  revert h t. induction a as [|c a IH]; intros h t; simpl; [done|].
  destruct (Ascii.eqb c "/"); apply IH.
Qed.

Lemma split_go_concat h t a :
  (OsPath.split_go h t a).1 +:+ (OsPath.split_go h t a).2 = h +:+ t +:+ a.
Proof.
  revert h t. induction a as [|c a IH]; intros h t; simpl.
  - by rewrite sapp_nil_r.
  - destruct (Ascii.eqb c "/") eqn:E.
    + apply Ascii.eqb_eq in E as ->. rewrite IH. simpl.
      by rewrite !sapp_assoc.
    + rewrite IH. by rewrite !sapp_assoc.
Qed.

Lemma split_go_no_sep h t b :
  contains b "/" = false → OsPath.split_go h t b = (h, t +:+ b).
Proof.
  revert t. induction b as [|c b IH]; intros t H.
  - simpl. by rewrite sapp_nil_r.
  - cbn [contains startswith] in H. apply orb_false_elim in H as [Hc Hb].
    rewrite andb_true_r, Ascii.eqb_sym in Hc.
    cbn [OsPath.split_go]. rewrite Hc.
    rewrite IH by done. by rewrite sapp_assoc.
Qed.

Lemma split_dir_name d b :
  plain_end d → contains b "/" = false →
  OsPath.split (d +:+ "/" +:+ b) = (d, b).
Proof.
  intros Hd Hb. unfold OsPath.split.
  rewrite split_go_app.
  pose proof (split_go_concat "" "" d) as Hc. simpl in Hc.
  change ("/" +:+ b) with (String "/" b).
  cbn [OsPath.split_go]. rewrite Ascii.eqb_refl.
  rewrite <- (sapp_assoc _ _ "/"), Hc, split_go_no_sep by done. simpl.
  rewrite truthy_app_r by done.
  rewrite all_sep_app, (all_sep_plain d Hd). simpl.
  rewrite rstrip_sep_app_sep, rstrip_sep_id; [done|apply Hd].
Qed.

(** *** [fnmatch] and [glob] *)

Lemma fnmatch_star name : Fnmatch.fnmatch "*" name = true.
Proof.
  cbn [Fnmatch.fnmatch]. rewrite Ascii.eqb_refl.
  induction name as [|c name IH]; [done|].
  cbn [Fnmatch.fnmatch] in *. by rewrite IH.
Qed.

(** A literal followed by [*] matches the names that start with the
    literal. *)
Lemma fnmatch_literal_star lit name :
  Fnmatch.literal lit = true →
  Fnmatch.fnmatch (lit +:+ "*") name = startswith name lit.
Proof.
  revert name. induction lit as [|c lit IH]; intros name H.
  - rewrite startswith_nil. apply fnmatch_star.
  - cbn [Fnmatch.literal] in H.
    apply andb_prop in H as [H Hlit]. apply andb_prop in H as [H1 H2].
    apply negb_true_iff in H1, H2.
    change (String c lit +:+ "*") with (String c (lit +:+ "*")).
    cbn [Fnmatch.fnmatch startswith]. rewrite H1, H2.
    destruct name as [|d name]; [done|]. by rewrite IH.
Qed.

Lemma prefix_not_hidden name :
  startswith name extension_prefix = true → Fnmatch.ishidden name = false.
Proof.
  unfold extension_prefix, Fnmatch.ishidden. cbn [startswith].
  destruct name as [|c name]; [done|]. intros H.
  apply andb_prop in H as [H _]. apply Ascii.eqb_eq in H as <-. done.
Qed.

Lemma prefix_not_absolute name :
  startswith name extension_prefix = true → startswith name "/" = false.
Proof.
  unfold extension_prefix. cbn [startswith].
  destruct name as [|c name]; [done|]. intros H.
  apply andb_prop in H as [H _]. apply Ascii.eqb_eq in H as <-. done.
Qed.

Lemma glob1_prefix f d :
  Os.glob1 f d (extension_prefix +:+ "*")
  = filter (λ name, startswith name extension_prefix) (Os.listdir f d).
Proof.
  unfold Os.glob1.
  replace (Fnmatch.ishidden (extension_prefix +:+ "*")) with false
    by (by vm_compute).
  cbn [negb]. rewrite list_filter_filter. apply list_filter_iff.
  intros name. rewrite fnmatch_literal_star by (by vm_compute).
  split; [by intros [? _]|]. intros H. split; [done|].
  apply Is_true_true in H. by rewrite (prefix_not_hidden _ H).
Qed.

(** The pattern of the script, globbed in a directory whose path has a
    plain end, yields the entries of that directory itself whose name
    starts with the prefix. *)
Lemma glob_extension_dir d p :
  plain_end d →
  Os.glob (OsPath.join d "vscode-arduino.vscode-arduino-community*") p
  = (Done (installed (fs p) d), p).
Proof.
  intros Hd. unfold Os.glob.
  rewrite join_plain by (done || by vm_compute).
  rewrite split_dir_name by (done || by vm_compute).
  f_equal. f_equal.
  change "vscode-arduino.vscode-arduino-community*"
    with (extension_prefix +:+ "*").
  rewrite glob1_prefix. unfold installed.
  apply list_fmap_ext. intros i name Hi.
  apply list_elem_of_lookup_2, list_elem_of_filter in Hi as [Hn _].
  apply Is_true_true in Hn.
  apply join_plain; [done|]. by apply prefix_not_absolute.
Qed.

Lemma remote_extensions_plain home : plain_end (remote_extensions home).
Proof.
  unfold remote_extensions.
  destruct (join_relative_app (OsPath.expanduser_tilde home)
              ".vscode-remote/extensions") as [x ->]; [done|].
  by apply endswith_sep_app_plain.
Qed.

Lemma server_extensions_plain home : plain_end (server_extensions home).
Proof.
  unfold server_extensions.
  destruct (join_relative_app (OsPath.expanduser_tilde home)
              ".vscode-server/extensions") as [x ->]; [done|].
  by apply endswith_sep_app_plain.
Qed.

Lemma installed_nil_not_dir f d : dirs f !! d = None → installed f d = [].
Proof. intros H. unfold installed, Os.listdir. by rewrite H. Qed.

(** The locate step leaves the process as it is and returns the first
    entry found, the remote root first. *)
Lemma find_extension_path_located p :
  Full.find_extension_path p = (Done (located (userhome p) (fs p)), p).
Proof.
  unfold Full.find_extension_path, located, mbind, Py_bind.
  unfold Os.expanduser_tilde at 1. cbn [Full.find_in mbind Py_bind].
  fold (remote_extensions (userhome p)) (server_extensions (userhome p)).
  unfold Os.isdir, mbind, Py_bind.
  destruct (dirs (fs p) !! remote_extensions (userhome p)) eqn:Er.
  - rewrite bool_decide_true by done.
    rewrite glob_extension_dir by apply remote_extensions_plain.
    destruct (installed (fs p) (remote_extensions (userhome p))) eqn:Ei;
      [|done].
    cbn [app].
    destruct (dirs (fs p) !! server_extensions (userhome p)) eqn:Es.
    + rewrite bool_decide_true by done.
      rewrite glob_extension_dir by apply server_extensions_plain.
      by destruct (installed (fs p) (server_extensions (userhome p))).
    + rewrite bool_decide_false by (by intros [? ?]).
      by rewrite (installed_nil_not_dir _ _ Es).
  - rewrite bool_decide_false by (by intros [? ?]).
    rewrite (installed_nil_not_dir _ _ Er). cbn [app].
    destruct (dirs (fs p) !! server_extensions (userhome p)) eqn:Es.
    + rewrite bool_decide_true by done.
      rewrite glob_extension_dir by apply server_extensions_plain.
      by destruct (installed (fs p) (server_extensions (userhome p))).
    + rewrite bool_decide_false by (by intros [? ?]).
      by rewrite (installed_nil_not_dir _ _ Es).
Qed.

End PathFacts.

(** ** The runs of the full script *)

Section MainFacts.

Implicit Types (p : process) (f : filesystem) (fl : file).
Implicit Types (home ext content e : string).

Lemma installed_truthy f d x : x ∈ installed f d → plain_end d → truthy x = true.
Proof.
  unfold installed. intros Hx [Hd _].
  apply list_elem_of_fmap in Hx as (name & -> & _). by destruct d.
Qed.

Lemma located_truthy home f ext : located home f = Some ext → truthy ext = true.
Proof.
  unfold located. intros H. apply head_Some_elem_of, elem_of_app in H as [H|H].
  - eapply installed_truthy; [done|apply remote_extensions_plain].
  - eapply installed_truthy; [done|apply server_extensions_plain].
Qed.

Lemma occurs_truthy sub s : sub ≠ "" → occurs sub s → truthy s = true.
Proof.
  intros Hne (a & b & ->). destruct a; [|done]. by destruct sub.
Qed.

(** *** The "try to patch" step *)

Lemma try_to_patch_v1 content p :
  contains content Full.old_line_v1 = true →
  Full.try_to_patch content p
  = (Done (Some (replace content Full.old_line_v1 Full.new_line_v1)),
     printed p ["Found pattern v1 (older extension version)"]).
Proof. intros H. unfold Full.try_to_patch. by rewrite H. Qed.

Lemma try_to_patch_v2 content p :
  contains content Full.old_line_v1 = false →
  contains content Full.old_line_v2 = true →
  Full.try_to_patch content p
  = (Done (Some (replace content Full.old_line_v2 Full.new_line_v2)),
     printed p ["Found pattern v2 (newer extension version)"]).
Proof. intros H1 H2. unfold Full.try_to_patch. by rewrite H1, H2. Qed.

Lemma try_to_patch_none content p :
  contains content Full.old_line_v1 = false →
  contains content Full.old_line_v2 = false →
  Full.try_to_patch content p = (Done None, p).
Proof. intros H1 H2. unfold Full.try_to_patch. by rewrite H1, H2. Qed.

(** Unfolds [Full.main] up to the point where the file has been read. *)
Ltac run_to_read H Hf :=
  unfold Full.main, mbind, Py_bind;
  rewrite find_extension_path_located, H;
  cbn [Full.truthy_opt]; rewrite (located_truthy _ _ _ H);
  cbn [negb default from_option id];
  unfold Os.isfile; rewrite Hf;
  rewrite bool_decide_true by done; cbn [negb];
  unfold Os.read_text; rewrite Hf.

Lemma main_not_found p :
  located (userhome p) (fs p) = None →
  Full.main p
  = (Exited 0, printed p ["Arduino extension not found. Skipping patch."]).
Proof.
  intros H. unfold Full.main, mbind, Py_bind.
  rewrite find_extension_path_located, H. done.
Qed.

Lemma main_target_missing p ext :
  located (userhome p) (fs p) = Some ext →
  files (fs p) !! Full.target_file ext = None →
  Full.main p
  = (Exited 0,
     printed p ["Target file not found at " +:+ Full.target_file ext +:+
                ". Skipping patch."]).
Proof.
  intros H Hf. unfold Full.main, mbind, Py_bind.
  rewrite find_extension_path_located, H.
  cbn [Full.truthy_opt]. rewrite (located_truthy _ _ _ H).
  cbn [negb default from_option id].
  unfold Os.isfile. rewrite Hf.
  rewrite bool_decide_false by (by intros [??]). done.
Qed.

Lemma main_read_error p ext fl e :
  located (userhome p) (fs p) = Some ext →
  files (fs p) !! Full.target_file ext = Some fl →
  on_read fl = ReadRaises e →
  Full.main p = (Exited 1, printed p ["Error reading file: " +:+ e]).
Proof. intros H Hf Hr. run_to_read H Hf. by rewrite Hr. Qed.

Lemma main_already_patched p ext fl :
  located (userhome p) (fs p) = Some ext →
  files (fs p) !! Full.target_file ext = Some fl →
  on_read fl = Readable →
  contains (data fl) Full.patched_marker = true →
  Full.main p
  = (Exited 0, printed p ["arduinoContentProvider.js is already patched."]).
Proof. intros H Hf Hr Hm. run_to_read H Hf. by rewrite Hr, Hm. Qed.

Lemma print_relevant_section_prints content p :
  ∃ lines,
    Full.print_relevant_section content p = (Done (), printed p lines).
Proof.
  unfold Full.print_relevant_section.
  destruct (contains content "window.onload = function()").
  - destruct (_ && _).
    + eexists [_; _]. unfold mbind, Py_bind, Sys.print, printed. cbn.
      by rewrite <- app_assoc.
    + exists []. unfold printed. rewrite app_nil_r. by destruct p.
  - exists []. unfold printed. rewrite app_nil_r. by destruct p.
Qed.

Lemma main_mismatch p ext fl :
  located (userhome p) (fs p) = Some ext →
  files (fs p) !! Full.target_file ext = Some fl →
  on_read fl = Readable →
  contains (data fl) Full.patched_marker = false →
  contains (data fl) Full.old_line_v1 = false →
  contains (data fl) Full.old_line_v2 = false →
  ∃ lines, Full.main p = (Exited 1, printed p (mismatch_lines ++ lines)).
Proof.
  intros H Hf Hr Hm H1 H2. run_to_read H Hf. rewrite Hr, Hm.
  rewrite try_to_patch_none by done. cbn [Full.truthy_opt].
  unfold Sys.print at 1 2 3.
  match goal with |- context [Full.print_relevant_section ?c ?q] =>
    destruct (print_relevant_section_prints c q) as [lines ->] end.
  exists lines. unfold Sys.exit, printed, mismatch_lines. cbn.
  by rewrite <- !app_assoc.
Qed.

(** The run when a rule has matched: what happens depends on the write. *)
Lemma main_matched p ext fl new_content msg :
  located (userhome p) (fs p) = Some ext →
  files (fs p) !! Full.target_file ext = Some fl →
  on_read fl = Readable →
  contains (data fl) Full.patched_marker = false →
  (∀ q, Full.try_to_patch (data fl) q
        = (Done (Some new_content), printed q [msg])) →
  truthy new_content = true →
  Full.main p
  = match on_write fl with
    | Writable =>
        (Exited 2,
         written p (msg :: success_lines) (Full.target_file ext)
           (Os.store (fs p) (Full.target_file ext)
              (Os.set_data fl new_content)))
    | OpenRaises e =>
        (Exited 1,
         written p [msg; "Error writing patched file: " +:+ e]
           (Full.target_file ext) (fs p))
    | FlushRaises e rest =>
        (Exited 1,
         written p [msg; "Error writing patched file: " +:+ e]
           (Full.target_file ext)
           (Os.store (fs p) (Full.target_file ext) (Os.set_data fl rest)))
    end.
Proof.
  intros H Hf Hr Hm Htry Ht. run_to_read H Hf. rewrite Hr, Hm, Htry.
  cbn [Full.truthy_opt default from_option id]. rewrite Ht.
  unfold Os.write_text. cbn [fs printed]. rewrite Hf.
  destruct (on_write fl); unfold Sys.print, Sys.exit, written, success_lines;
    cbn; by rewrite <- ?app_assoc.
Qed.

End MainFacts.

(** ** The literals *)

Section LiteralFacts.

Lemma old_line_v1_nonempty : Full.old_line_v1 ≠ "".
Proof. by vm_compute. Qed.

Lemma old_line_v2_nonempty : Full.old_line_v2 ≠ "".
Proof. by vm_compute. Qed.

Lemma old_line_v1_unbordered : ¬ bordered Full.old_line_v1.
Proof. apply unbordered_by_computation. by vm_compute. Qed.

Lemma old_line_v2_unbordered : ¬ bordered Full.old_line_v2.
Proof. apply unbordered_by_computation. by vm_compute. Qed.

Lemma marker_in_new_line_v1 :
  contains Full.new_line_v1 Full.patched_marker = true.
Proof. by vm_compute. Qed.

Lemma marker_in_new_line_v2 :
  contains Full.new_line_v2 Full.patched_marker = true.
Proof. by vm_compute. Qed.

(** The text a rule produces holds the marker. *)
Lemma replace_v1_has_marker content :
  contains content Full.old_line_v1 = true →
  contains (replace content Full.old_line_v1 Full.new_line_v1)
    Full.patched_marker = true.
Proof.
  intros H. apply contains_trans with Full.new_line_v1.
  - apply marker_in_new_line_v1.
  - apply contains_occurs, replace_present;
      [apply old_line_v1_nonempty | by apply contains_occurs].
Qed.

Lemma replace_v2_has_marker content :
  contains content Full.old_line_v2 = true →
  contains (replace content Full.old_line_v2 Full.new_line_v2)
    Full.patched_marker = true.
Proof.
  intros H. apply contains_trans with Full.new_line_v2.
  - apply marker_in_new_line_v2.
  - apply contains_occurs, replace_present;
      [apply old_line_v2_nonempty | by apply contains_occurs].
Qed.

Lemma has_marker_truthy s :
  contains s Full.patched_marker = true → truthy s = true.
Proof.
  intros H. apply contains_occurs in H.
  eapply occurs_truthy; [|done]. by vm_compute.
Qed.

End LiteralFacts.

(** ** The runs, case by case *)

Section RunFacts.

Implicit Types (p q : process) (content new_content msg : string).

Lemma rule_applied_try content new_content msg q :
  rule_applied content new_content msg →
  Full.try_to_patch content q = (Done (Some new_content), printed q [msg]).
Proof.
  intros [H1|H1 H2]; [by apply try_to_patch_v1 | by apply try_to_patch_v2].
Qed.

Lemma rule_applied_marker content new_content msg :
  rule_applied content new_content msg →
  contains new_content Full.patched_marker = true.
Proof.
  intros [H1|H1 H2];
    [by apply replace_v1_has_marker | by apply replace_v2_has_marker].
Qed.

Lemma rule_applied_matched content new_content msg :
  rule_applied content new_content msg →
  contains content Full.old_line_v1 = true ∨
  contains content Full.old_line_v2 = true.
Proof. intros [H1|H1 H2]; auto. Qed.

Lemma rule_applied_or_none content :
  (∃ new_content msg, rule_applied content new_content msg) ∨
  (contains content Full.old_line_v1 = false ∧
   contains content Full.old_line_v2 = false).
Proof.
  destruct (contains content Full.old_line_v1) eqn:H1.
  - left. eexists _, _. by apply rule_v1.
  - destruct (contains content Full.old_line_v2) eqn:H2.
    + left. eexists _, _. by apply rule_v2.
    + by right.
Qed.

(** Every run of [main] is one of the runs of [full_run]: [main] always
    leaves through [sys.exit]. *)
Lemma full_run_main p : full_run p (Full.main p).
Proof.
  destruct (located (userhome p) (fs p)) as [ext|] eqn:Hl.
  2: { rewrite main_not_found by done. by constructor. }
  destruct (files (fs p) !! Full.target_file ext) as [fl|] eqn:Hf.
  2: { rewrite (main_target_missing p ext) by done. by constructor. }
  destruct (on_read fl) as [|e] eqn:Hr.
  2: { rewrite (main_read_error p ext fl e) by done. by econstructor. }
  destruct (contains (data fl) Full.patched_marker) eqn:Hm.
  { rewrite (main_already_patched p ext fl) by done. by econstructor. }
  destruct (rule_applied_or_none (data fl)) as [(nc & msg & Hrule)|[H1 H2]].
  - rewrite (main_matched p ext fl nc msg); try done.
    + destruct (on_write fl) eqn:Hw; by econstructor.
    + intros q. by apply rule_applied_try.
    + eapply has_marker_truthy, rule_applied_marker. done.
  - destruct (main_mismatch p ext fl) as [lines ->]; try done.
    by econstructor.
Qed.

Lemma main_rule_applied p ext fl new_content msg :
  located (userhome p) (fs p) = Some ext →
  files (fs p) !! Full.target_file ext = Some fl →
  on_read fl = Readable →
  contains (data fl) Full.patched_marker = false →
  rule_applied (data fl) new_content msg →
  Full.main p
  = match on_write fl with
    | Writable =>
        (Exited 2,
         written p (msg :: success_lines) (Full.target_file ext)
           (Os.store (fs p) (Full.target_file ext)
              (Os.set_data fl new_content)))
    | OpenRaises e =>
        (Exited 1,
         written p [msg; "Error writing patched file: " +:+ e]
           (Full.target_file ext) (fs p))
    | FlushRaises e rest =>
        (Exited 1,
         written p [msg; "Error writing patched file: " +:+ e]
           (Full.target_file ext)
           (Os.store (fs p) (Full.target_file ext) (Os.set_data fl rest)))
    end.
Proof.
  intros Hl Hf Hr Hm Hrule. apply main_matched; try done.
  - intros q. by apply rule_applied_try.
  - eapply has_marker_truthy, rule_applied_marker. done.
Qed.

Lemma text_at_store f path fl :
  text_at (Os.store f path fl) path = Some (data fl).
Proof. unfold text_at, Os.store. cbn. by rewrite lookup_insert_eq. Qed.


Lemma lookup_store f path fl :
  files (Os.store f path fl) !! path = Some fl.
Proof. unfold Os.store. cbn. by rewrite lookup_insert_eq. Qed.


End RunFacts.

(** * The claims *)






(** C3. When the content of the target file holds the v1 legacy literal or
    the v2 legacy literal, the text the "try to patch" step produces holds
    the marker; and after one run of [main] on a file that can be read and
    written, the file holds the marker. *)
Theorem patched_content_has_marker (home : string) (f : filesystem)
    (ext : string) (fl : file) :
  contains (data fl) Full.old_line_v1 = true ∨
  contains (data fl) Full.old_line_v2 = true →
  (∀ q, ∃ new_content q',
     Full.try_to_patch (data fl) q = (Done (Some new_content), q') ∧
     contains new_content Full.patched_marker = true) ∧
  (located home f = Some ext →
   files f !! Full.target_file ext = Some fl →
   on_read fl = Readable →
   on_write fl = Writable →
   ∃ content',
     text_at (fs (run Full.main home f).2) (Full.target_file ext)
     = Some content' ∧
     contains content' Full.patched_marker = true).
Proof.
  intros Hor.
  destruct (rule_applied_or_none (data fl)) as [(nc & msg & Hrule)|[H1 H2]];
    [|destruct Hor; congruence].
  split.
  - intros q. eexists _, _. split; [by apply rule_applied_try|].
    by eapply rule_applied_marker.
  - intros Hl Hf Hr Hw. unfold run.
    destruct (contains (data fl) Full.patched_marker) eqn:Hm.
    + rewrite (main_already_patched _ ext fl) by done.
      exists (data fl). unfold text_at. cbn [snd printed fs start].
      by rewrite Hf.
    + rewrite (main_rule_applied _ ext fl nc msg), Hw by done.
      exists nc. split; [apply text_at_store|by eapply rule_applied_marker].
Qed.

Lemma patched_content_has_marker_witness :
  ∃ content',
    text_at (fs (run Full.main sample_home (sample_fs both_lines)).2)
      (Full.target_file sample_ext) = Some content' ∧
    contains content' Full.patched_marker = true.
Proof.
  apply (proj2 (patched_content_has_marker sample_home (sample_fs both_lines)
                  sample_ext (File both_lines Readable Writable)
                  (or_introl eq_refl)));
    vm_compute; reflexivity.
Defined.

(** C4. The "try to patch" step tries the v1 literal before the v2 literal:
    when the v1 literal occurs the text produced is the content with the v1
    literal replaced, whether the v2 literal occurs or not, and only the v1
    line is reported; the v2 rule applies when the v1 literal is absent; no
    rule applies when both are absent.  The replacement reaches every
    occurrence: an occurrence is replaced wherever it stands in the content,
    and none is left in the text produced. *)
Theorem first_match_replaces_all (content : string) (q : process) :
  (contains content Full.old_line_v1 = true →
   Full.try_to_patch content q
   = (Done (Some (replace content Full.old_line_v1 Full.new_line_v1)),
      printed q ["Found pattern v1 (older extension version)"])) ∧
  (contains content Full.old_line_v1 = false →
   contains content Full.old_line_v2 = true →
   Full.try_to_patch content q
   = (Done (Some (replace content Full.old_line_v2 Full.new_line_v2)),
      printed q ["Found pattern v2 (newer extension version)"])) ∧
  (contains content Full.old_line_v1 = false →
   contains content Full.old_line_v2 = false →
   Full.try_to_patch content q = (Done None, q)) ∧
  (∀ x y,
     replace (x +:+ Full.old_line_v1 +:+ y) Full.old_line_v1 Full.new_line_v1
     = replace x Full.old_line_v1 Full.new_line_v1 +:+ Full.new_line_v1 +:+
       replace y Full.old_line_v1 Full.new_line_v1) ∧
  (∀ x y,
     replace (x +:+ Full.old_line_v2 +:+ y) Full.old_line_v2 Full.new_line_v2
     = replace x Full.old_line_v2 Full.new_line_v2 +:+ Full.new_line_v2 +:+
       replace y Full.old_line_v2 Full.new_line_v2) ∧
  contains (replace content Full.old_line_v1 Full.new_line_v1)
    Full.old_line_v1 = false ∧
  contains (replace content Full.old_line_v2 Full.new_line_v2)
    Full.old_line_v2 = false.
Proof.
  split_and!.
  - apply try_to_patch_v1.
  - apply try_to_patch_v2.
  - apply try_to_patch_none.
  - intros x y. apply replace_app_unbordered;
      [apply old_line_v1_nonempty | apply old_line_v1_unbordered].
  - intros x y. apply replace_app_unbordered;
      [apply old_line_v2_nonempty | apply old_line_v2_unbordered].
  - apply contains_false, replace_leaves_none;
      [apply old_line_v1_nonempty | by vm_compute..].
  - apply contains_false, replace_leaves_none;
      [apply old_line_v2_nonempty | by vm_compute..].
Qed.

Lemma first_match_replaces_all_witness :
  Full.try_to_patch both_lines (start sample_home empty_fs)
  = (Done (Some (Full.new_line_v1 +:+ ";" +:+ Full.old_line_v2)),
     printed (start sample_home empty_fs)
       ["Found pattern v1 (older extension version)"]).
Proof.
  rewrite (proj1 (first_match_replaces_all both_lines
                    (start sample_home empty_fs)))
    by (vm_compute; reflexivity).
  vm_compute. reflexivity.
Defined.




(** C6. When the content read holds neither legacy literal nor the marker,
    [main] exits with status 1 after the lines that report that the pattern
    was not found; it has opened no file for writing and the file system,
    hence the target file, is as it was. *)
Theorem mismatch_leaves_file (home : string) (f : filesystem)
    (ext : string) (fl : file) :
  located home f = Some ext →
  files f !! Full.target_file ext = Some fl →
  on_read fl = Readable →
  contains (data fl) Full.patched_marker = false →
  contains (data fl) Full.old_line_v1 = false →
  contains (data fl) Full.old_line_v2 = false →
  let r := run Full.main home f in
  exit_status r = 1 ∧
  opened_w r.2 = [] ∧
  fs r.2 = f ∧
  text_at (fs r.2) (Full.target_file ext) = Some (data fl) ∧
  ∃ lines, stdout r.2 = mismatch_lines ++ lines.
Proof.
  intros Hl Hf Hr Hm H1 H2. unfold run. cbn zeta.
  destruct (main_mismatch (start home f) ext fl) as [lines ->]; try done.
  split_and!; try done.
  - unfold text_at. cbn [snd printed fs start]. by rewrite Hf.
  - by exists lines.
Qed.

Lemma mismatch_leaves_file_witness :
  exit_status (run Full.main sample_home (sample_fs plain_content)) = 1 ∧
  fs (run Full.main sample_home (sample_fs plain_content)).2
  = sample_fs plain_content.
Proof.
  destruct (mismatch_leaves_file sample_home (sample_fs plain_content)
              sample_ext (File plain_content Readable Writable))
    as (H1 & _ & H3 & _); try (vm_compute; reflexivity).
  split; [exact H1 | exact H3].
Defined.



(** C8, at a content that holds both legacy lines: both old literals occur
    in it. *)
Lemma both_rules_match_both_lines :
  contains both_lines Full.old_line_v1 = true ∧
  contains both_lines Full.old_line_v2 = true ∧
  ¬ (∀ content,
       ¬ (contains content Full.old_line_v1 = true ∧
          contains content Full.old_line_v2 = true)).
Proof.
  assert (contains both_lines Full.old_line_v1 = true ∧
          contains both_lines Full.old_line_v2 = true) as H
    by (split; vm_compute; reflexivity).
  split_and!; [apply H..|]. intros Hall. by apply (Hall both_lines).
Qed.

(** C8, amended. The two legacy literals exclude each other at any one
    place: neither occurs in the other, and no text starts with both, so no
    occurrence of one is a match of the other.  A content may still hold
    both at different places; the v1 rule alone is then applied. *)
Theorem rules_exclusive_in_place :
  contains Full.old_line_v2 Full.old_line_v1 = false ∧
  contains Full.old_line_v1 Full.old_line_v2 = false ∧
  (∀ s, startswith s Full.old_line_v1 = true →
        startswith s Full.old_line_v2 = false) ∧
  (∀ content q,
     contains content Full.old_line_v1 = true →
     contains content Full.old_line_v2 = true →
     Full.try_to_patch content q
     = (Done (Some (replace content Full.old_line_v1 Full.new_line_v1)),
        printed q ["Found pattern v1 (older extension version)"])).
Proof.
  split_and!; [by vm_compute..| |].
  - intros s H. apply startswith_inv in H as [r ->].
    vm_compute. reflexivity.
  - intros content q H1 _. by apply try_to_patch_v1.
Qed.

Lemma rules_exclusive_in_place_witness :
  startswith (Full.old_line_v1 +:+ "tail") Full.old_line_v2 = false.
Proof.
  apply (proj1 (proj2 (proj2 rules_exclusive_in_place))).
  vm_compute. reflexivity.
Defined.



(** C10. The literals of the minimal script are those of the v2 rule of the
    full script, so on a content that holds the v2 legacy literal the
    minimal script produces the text that the v2 branch of the full script
    produces. *)
Theorem minimal_script_is_v2_rule :
  Minimal.old_line = Full.old_line_v2 ∧
  Minimal.new_line = Full.new_line_v2 ∧
  ∀ content,
    contains content Full.old_line_v2 = true →
    Minimal.new_content content
    = Some (replace content Full.old_line_v2 Full.new_line_v2) ∧
    (contains content Full.old_line_v1 = false →
     ∀ q, (Full.try_to_patch content q).1
          = Done (Minimal.new_content content)).
Proof.
  split_and!; [done..|]. intros content H.
  assert (Minimal.new_content content
          = Some (replace content Full.old_line_v2 Full.new_line_v2)) as Hm.
  { unfold Minimal.new_content.
    change Minimal.old_line with Full.old_line_v2.
    change Minimal.new_line with Full.new_line_v2. by rewrite H. }
  split; [done|]. intros H1 q. by rewrite Hm, try_to_patch_v2.
Qed.

Lemma minimal_script_is_v2_rule_witness :
  Minimal.new_content ("a" +:+ Full.old_line_v2 +:+ "b")
  = Some (replace ("a" +:+ Full.old_line_v2 +:+ "b")
            Full.old_line_v2 Full.new_line_v2).
Proof.
  apply (proj2 (proj2 minimal_script_is_v2_rule)). vm_compute. reflexivity.
Defined.

(** * Further lemmas *)

(** ** [find] and slices *)

Section FindFacts.

Implicit Types a b s sub : string.

Lemma find_from_none i s sub :
  find_from i s sub = None ↔ contains s sub = false.
Proof.
  revert i. induction s as [|c s IH]; intros i; cbn [find_from contains].
  - destruct (startswith "" sub); [split; discriminate|done].
  - destruct (startswith (String c s) sub); [split; discriminate|].
    rewrite orb_false_l. apply IH.
Qed.


Lemma find_absent s sub : find s sub = -1 ↔ contains s sub = false.
Proof.
  unfold find. rewrite <- (find_from_none 0).
  destruct (find_from 0 s sub); [|done]. split; [lia|done].
Qed.








End FindFacts.

(** ** More on [replace] *)

Section ReplaceFacts.

Implicit Types a b s w old new : string.


(** An occurrence of [w] survives the replacement of [old] when [w] and
    [old] neither contain nor overlap one another. *)
Lemma replace_keeps_apart old new w s :
  old ≠ "" →
  contains old w = false →
  contains w old = false →
  overlaps old w = false →
  overlaps w old = false →
  occurs w s → occurs w (replace s old new).
Proof.
  intros Hold H1 H2 H3 H4.
  apply contains_false in H1, H2.
  assert (¬ overlapping old w) as H3'
    by (rewrite <- overlaps_spec; by rewrite H3).
  assert (¬ overlapping w old) as H4'
    by (rewrite <- overlaps_spec; by rewrite H4).
  clear H3 H4.
  remember (String.length s) as n eqn:Hn. revert s Hn.
  induction n as [n IH] using lt_wf_ind. intros s Hn Hw.
  destruct (contains s old) eqn:E.
  - apply contains_occurs in E.
    destruct (replace_first old new s Hold E) as (x & r & -> & Hx & ->).
    apply occurs_app_cases in Hw
      as [Hw|[Hw|(t1 & t2 & u & v & Ht1 & Ht2 & Hwt & _ & Hv)]].
    + by apply occurs_app_r.
    + apply occurs_app_l.
      apply occurs_app_cases in Hw
        as [?|[Hw|(t1 & t2 & u & v & Ht1 & Ht2 & Hwt & Hu & _)]]; [done| |].
      * apply occurs_app_l. apply (IH (String.length r)); [|done|done].
        rewrite Hn, !slength_app. destruct old; [done|]. simpl. lia.
      * destruct H3'. by exists u, t1, t2.
    + destruct (sapp_eq_app _ _ _ _ Hv) as [[e [He _]]|[e [He _]]].
      * destruct H2. rewrite Hwt, He. by exists t1, e.
      * destruct H4'. by exists t1, t2, e.
  - apply contains_false in E. by rewrite replace_absent.
Qed.

End ReplaceFacts.

(** ** The diagnostic excerpt *)

Section ExcerptFacts.

(** What [print_relevant_section] does, by the two anchors. *)
Lemma print_relevant_section_cases content q :
  Full.print_relevant_section content q
  = (Done (),
     if contains content onload_anchor && contains content frame_anchor
     then printed q
            ["Relevant section in file:";
             slice content (find content onload_anchor)
               (find content frame_anchor + 50)]
     else q).
Proof.
  unfold Full.print_relevant_section.
  change "window.onload = function()" with onload_anchor.
  change "document.getElementById('frame').src = url;" with frame_anchor.
  destruct (contains content onload_anchor) eqn:E1; [|done].
  destruct (contains content frame_anchor) eqn:E2.
  - destruct (find content onload_anchor =? -1) eqn:F1.
    { apply Z.eqb_eq, find_absent in F1. congruence. }
    destruct (find content frame_anchor =? -1) eqn:F2.
    { apply Z.eqb_eq, find_absent in F2. congruence. }
    cbn [negb andb]. unfold mbind, Py_bind, Sys.print, printed. cbn.
    by rewrite <- app_assoc.
  - apply find_absent in E2. rewrite E2. cbn. by rewrite andb_false_r.
Qed.


End ExcerptFacts.

(** ** More on the runs of the full script *)

Section MoreRunFacts.






Lemma dom_store f path fl fl' :
  files f !! path = Some fl →
  dom (files (Os.store f path fl')) = dom (files f).
Proof.
  intros H. unfold Os.store. cbn. apply dom_insert_lookup_L. by eexists.
Qed.

Lemma lookup_store_ne f path path' fl :
  path ≠ path' → files (Os.store f path fl) !! path' = files f !! path'.
Proof. intros H. unfold Os.store. cbn. by apply lookup_insert_ne. Qed.

End MoreRunFacts.

Section StableFacts.

(** A file system whose target file holds the marker is left as it is. *)
Lemma marked_file_stays home g ext fl :
  located home g = Some ext →
  files g !! Full.target_file ext = Some fl →
  on_read fl = Readable →
  contains (data fl) Full.patched_marker = true →
  ∀ n, fs_after n home g = g.
Proof.
  intros Hl Hf Hr Hm. induction n as [|n IH]; [done|].
  cbn [fs_after]. rewrite IH. unfold run.
  by rewrite (main_already_patched (start home g) ext fl).
Qed.

Lemma fs_after_S n home f :
  fs_after (S n) home f = fs_after n home (fs (run Full.main home f).2).
Proof.
  induction n as [|n IH]; [done|].
  cbn [fs_after] in *. by rewrite IH.
Qed.

Lemma v2_survives_v1_rule content :
  contains content Full.old_line_v2 = true →
  contains (replace content Full.old_line_v1 Full.new_line_v1)
    Full.old_line_v2 = true.
Proof.
  intros H. apply contains_occurs, replace_keeps_apart;
    [apply old_line_v1_nonempty|by vm_compute..|by apply contains_occurs].
Qed.

End StableFacts.

Section LoopFacts.


End LoopFacts.

(** ** The runs of the minimal script *)

Section MinimalFacts.

Implicit Types (p : process) (fl : file).

Lemma minimal_unreadable p :
  (files (fs p) !! Minimal.file_path = None ∨
   ∃ fl e, files (fs p) !! Minimal.file_path = Some fl ∧
           on_read fl = ReadRaises e) →
  Minimal.script p = (Exited 1, p).
Proof.
  unfold Minimal.script, mbind, Py_bind, Os.read_text.
  intros [->|(fl & e & -> & ->)]; done.
Qed.

Lemma minimal_not_found p fl :
  files (fs p) !! Minimal.file_path = Some fl →
  on_read fl = Readable →
  contains (data fl) Minimal.old_line = false →
  Minimal.script p
  = (Done (), printed p ["Could not find target string to replace"]).
Proof.
  intros Hf Hr Ho.
  unfold Minimal.script, mbind, Py_bind, Os.read_text, Minimal.new_content.
  by rewrite Hf, Hr, Ho.
Qed.

Lemma minimal_found p fl :
  files (fs p) !! Minimal.file_path = Some fl →
  on_read fl = Readable →
  contains (data fl) Minimal.old_line = true →
  Minimal.script p
  = match on_write fl with
    | Writable =>
        (Done (),
         written p ["Successfully patched arduinoContentProvider.js"]
           Minimal.file_path
           (Os.store (fs p) Minimal.file_path
              (Os.set_data fl
                 (replace (data fl) Minimal.old_line Minimal.new_line))))
    | OpenRaises e => (Exited 1, written p [] Minimal.file_path (fs p))
    | FlushRaises e rest =>
        (Exited 1,
         written p [] Minimal.file_path
           (Os.store (fs p) Minimal.file_path (Os.set_data fl rest)))
    end.
Proof.
  intros Hf Hr Ho.
  unfold Minimal.script, mbind, Py_bind, Os.read_text, Minimal.new_content.
  rewrite Hf, Hr, Ho. unfold Os.write_text. rewrite Hf.
  destruct (on_write fl); unfold written, Sys.print, Sys.exit; cbn;
    by rewrite ?app_nil_r.
Qed.

End MinimalFacts.

(** ** What the full script prints *)

Section OutputFacts.

Implicit Types (p : process) (fl : file).

(** The mismatch run, with the lines of the excerpt made explicit. *)
Lemma main_mismatch_excerpt p ext fl :
  located (userhome p) (fs p) = Some ext →
  files (fs p) !! Full.target_file ext = Some fl →
  on_read fl = Readable →
  contains (data fl) Full.patched_marker = false →
  contains (data fl) Full.old_line_v1 = false →
  contains (data fl) Full.old_line_v2 = false →
  Full.main p
  = (Exited 1,
     printed p
       (mismatch_lines ++
        if contains (data fl) onload_anchor && contains (data fl) frame_anchor
        then ["Relevant section in file:";
              slice (data fl) (find (data fl) onload_anchor)
                (find (data fl) frame_anchor + 50)]
        else [])).
Proof.
  intros H Hf Hr Hm H1 H2. unfold Full.main, mbind, Py_bind.
  rewrite find_extension_path_located, H.
  cbn [Full.truthy_opt]. rewrite (located_truthy _ _ _ H).
  cbn [negb default from_option id].
  unfold Os.isfile. rewrite Hf. rewrite bool_decide_true by done. cbn [negb].
  unfold Os.read_text. rewrite Hf, Hr, Hm.
  rewrite try_to_patch_none by done. cbn [Full.truthy_opt].
  unfold Sys.print at 1 2 3. rewrite print_relevant_section_cases.
  destruct (_ && _); unfold Sys.exit, printed, mismatch_lines; cbn;
    by rewrite <- ?app_assoc, ?app_nil_r.
Qed.


End OutputFacts.

(** ** The legacy lines after a patch *)

Section AfterPatchFacts.

Implicit Types a b s w old new : string.

(** The replacement creates no occurrence of [w] when [w] and [new] neither
    contain nor overlap one another. *)
Lemma replace_creates_none old new w s :
  old ≠ "" →
  contains new w = false →
  contains w new = false →
  overlaps new w = false →
  overlaps (tail w) new = false →
  ¬ occurs w s → ¬ occurs w (replace s old new).
Proof.
  intros Hold H1 H2 H3 H4.
  apply contains_false in H1, H2.
  assert (¬ overlapping new w) as H3'
    by (rewrite <- overlaps_spec; by rewrite H3).
  assert (¬ overlapping (tail w) new) as H4'
    by (rewrite <- overlaps_spec; by rewrite H4).
  clear H3 H4.
  remember (String.length s) as n eqn:Hn. revert s Hn.
  induction n as [n IH] using lt_wf_ind. intros s Hn Hs.
  destruct (contains s old) eqn:E.
  - apply contains_occurs in E.
    destruct (replace_first old new s Hold E) as (x & r & -> & Hx & ->).
    assert (¬ occurs w (replace r old new)) as HR.
    { apply (IH (String.length r)); [|done|].
      - rewrite Hn, !slength_app. destruct old; [done|]. simpl. lia.
      - intros H. by apply Hs, occurs_app_l, occurs_app_l. }
    intros Ho.
    apply occurs_app_cases in Ho
      as [Ho|[Ho|(t1 & t2 & u & v & Ht1 & Ht2 & Hw & _ & Hv)]].
    + by apply Hs, occurs_app_r.
    + apply occurs_app_cases in Ho
        as [?|[?|(t1 & t2 & u & v & Ht1 & Ht2 & Hw & Hu & _)]];
        [done|done|].
      apply H3'. by exists u, t1, t2.
    + destruct (sapp_eq_app _ _ _ _ Hv) as [[e [He _]]|[e [Hnew _]]].
      * apply H2. rewrite Hw, He. by exists t1, e.
      * apply H4'. destruct t1 as [|c t1]; [done|]. rewrite Hw. simpl.
        by exists t1, t2, e.
  - apply contains_false in E. by rewrite replace_absent.
Qed.

(** The legacy lines in the text a rule has produced. *)
Lemma rule_applied_legacy content new_content msg :
  rule_applied content new_content msg →
  contains new_content Full.old_line_v1 = false ∧
  (contains new_content Full.old_line_v2 = true ↔
   contains content Full.old_line_v1 = true ∧
   contains content Full.old_line_v2 = true).
Proof.
  intros [H1|H1 H2].
  - split.
    + apply contains_false, replace_leaves_none;
        [apply old_line_v1_nonempty | by vm_compute..].
    + split.
      * intros H. split; [done|].
        destruct (contains content Full.old_line_v2) eqn:E; [done|].
        apply contains_false in E. apply contains_occurs in H.
        exfalso. revert H. apply replace_creates_none;
          [apply old_line_v1_nonempty | by vm_compute.. | done].
      * intros [_ H]. by apply v2_survives_v1_rule.
  - split.
    + apply contains_false, replace_creates_none;
        [apply old_line_v2_nonempty | by vm_compute.. | ].
      by apply contains_false.
    + split; [|intros [? _]; congruence].
      intros H. exfalso. apply contains_occurs in H. revert H.
      apply replace_leaves_none;
        [apply old_line_v2_nonempty | by vm_compute..].
Qed.

End AfterPatchFacts.

(** ** The home directory *)

Section HomeFacts.

Lemma expanduser_tilde_sep home :
  OsPath.expanduser_tilde (home +:+ "/") = OsPath.expanduser_tilde home.
Proof. unfold OsPath.expanduser_tilde. by rewrite rstrip_sep_app_sep. Qed.

Lemma located_sep home f : located (home +:+ "/") f = located home f.
Proof.
  unfold located, remote_extensions, server_extensions.
  by rewrite expanduser_tilde_sep.
Qed.

End HomeFacts.

(** * Properties beyond the claims *)



(** X2. A separator at the end of the home directory makes no difference:
    the locate step finds the same path, and [main] exits with the same
    status, prints the same lines, opens the same paths for writing and
    leaves the same file system.  The candidate roots never end with a
    separator. *)
Theorem home_trailing_separator (home : string) (f : filesystem) :
  let r := run Full.main home f in
  let r' := run Full.main (home +:+ "/") f in
  located (home +:+ "/") f = located home f ∧
  plain_end (remote_extensions home) ∧
  plain_end (server_extensions home) ∧
  exit_status r' = exit_status r ∧
  stdout r'.2 = stdout r.2 ∧
  opened_w r'.2 = opened_w r.2 ∧
  fs r'.2 = fs r.2.
Proof.
  cbn zeta. split; [apply located_sep|].
  split; [apply remote_extensions_plain|].
  split; [apply server_extensions_plain|].
  unfold run.
  set (p := start home f). set (p' := start (home +:+ "/") f).
  assert (located (userhome p') (fs p') = located (userhome p) (fs p)) as Hp
    by apply located_sep.
  destruct (located (userhome p) (fs p)) as [ext|] eqn:Hl.
  2: { by rewrite (main_not_found p), (main_not_found p'). }
  destruct (files f !! Full.target_file ext) as [fl|] eqn:Hf.
  2: { by rewrite (main_target_missing p ext),
         (main_target_missing p' ext). }
  destruct (on_read fl) as [|e] eqn:Hr.
  2: { by rewrite (main_read_error p ext fl e),
         (main_read_error p' ext fl e). }
  destruct (contains (data fl) Full.patched_marker) eqn:Hm.
  { by rewrite (main_already_patched p ext fl),
      (main_already_patched p' ext fl). }
  destruct (rule_applied_or_none (data fl)) as [(nc & msg & Hrule)|[H1 H2]].
  - rewrite (main_rule_applied p ext fl nc msg),
      (main_rule_applied p' ext fl nc msg) by done.
    by destruct (on_write fl).
  - by rewrite (main_mismatch_excerpt p ext fl),
      (main_mismatch_excerpt p' ext fl).
Qed.

(** X3. A run of [main] changes at most the target file: the directories
    are as before, no file is created or removed, every file other than the
    target is as before, and the only path ever opened for writing is the
    target. *)
Theorem main_touches_only_target (home : string) (f : filesystem) :
  let r := run Full.main home f in
  dirs (fs r.2) = dirs f ∧
  dom (files (fs r.2)) = dom (files f) ∧
  (∀ path,
     (∀ ext, located home f = Some ext → path ≠ Full.target_file ext) →
     files (fs r.2) !! path = files f !! path) ∧
  (opened_w r.2 = [] ∨
   ∃ ext, located home f = Some ext ∧ opened_w r.2 = [Full.target_file ext]).
Proof.
  unfold run. cbn zeta.
  destruct (full_run_main (start home f))
    as [Hl|ext Hl Hf|ext fl e Hl Hf Hr|ext fl Hl Hf Hr Hm
        |ext fl lines Hl Hf Hr Hm H1 H2
        |ext fl nc msg Hl Hf Hr Hm Hrule Hw
        |ext fl nc msg e Hl Hf Hr Hm Hrule Hw
        |ext fl nc msg e rest Hl Hf Hr Hm Hrule Hw];
    cbn [snd printed written fs start userhome opened_w app] in *;
    split_and!; try done; try (by left); try (right; by exists ext).
  - by eapply dom_store.
  - intros path Hp. apply lookup_store_ne. intros <-. by apply (Hp ext).
  - by eapply dom_store.
  - intros path Hp. apply lookup_store_ne. intros <-. by apply (Hp ext).
Qed.

Lemma main_touches_only_target_witness :
  files (fs (run Full.main sample_home (sample_fs both_lines)).2)
    !! "/etc/passwd"
  = files (sample_fs both_lines) !! "/etc/passwd".
Proof.
  apply (proj1 (proj2 (proj2
           (main_touches_only_target sample_home (sample_fs both_lines))))).
  intros ext Hl. vm_compute in Hl. injection Hl as <-.
  vm_compute. discriminate.
Defined.


(** X5. The truth test [if new_content:] never takes a text produced by a
    rule for "no rule matched": the result of the "try to patch" step is
    true exactly when an old literal occurs in the content, and a false
    result is [None]. *)
Theorem new_content_true_iff_matched (content : string) (q : process) :
  ∃ o q',
    Full.try_to_patch content q = (Done o, q') ∧
    (Full.truthy_opt o = true ↔
     contains content Full.old_line_v1 = true ∨
     contains content Full.old_line_v2 = true) ∧
    (Full.truthy_opt o = false → o = None).
Proof.
  destruct (rule_applied_or_none content) as [(nc & msg & Hrule)|[H1 H2]].
  - eexists _, _. split; [by eapply rule_applied_try|].
    pose proof (has_marker_truthy _ (rule_applied_marker _ _ _ Hrule)) as Ht.
    cbn [Full.truthy_opt]. rewrite Ht. split; [|done].
    split; [intros _|done]. by eapply rule_applied_matched.
  - eexists _, _. split; [by apply try_to_patch_none|].
    cbn [Full.truthy_opt]. split; [|done].
    split; [done|]. intros [?|?]; congruence.
Qed.

Lemma new_content_true_iff_matched_witness :
  ∃ o q',
    Full.try_to_patch both_lines (start sample_home empty_fs) = (Done o, q') ∧
    Full.truthy_opt o = true.
Proof.
  destruct (new_content_true_iff_matched both_lines
              (start sample_home empty_fs)) as (o & q' & H & Hiff & _).
  exists o, q'. split; [exact H|]. apply Hiff. left. vm_compute. reflexivity.
Defined.



(** X7. After a run of [main] that exits with status 2, the v1 legacy
    line does not occur in the file, and the v2 legacy line occurs in it
    exactly when the file held both legacy lines before the run. *)
Theorem legacy_lines_after_patch (home : string) (f : filesystem) :
  let r := run Full.main home f in
  exit_status r = 2 →
  ∃ ext content new_content,
    located home f = Some ext ∧
    text_at f (Full.target_file ext) = Some content ∧
    text_at (fs r.2) (Full.target_file ext) = Some new_content ∧
    contains new_content Full.old_line_v1 = false ∧
    (contains new_content Full.old_line_v2 = true ↔
     contains content Full.old_line_v1 = true ∧
     contains content Full.old_line_v2 = true).
Proof.
  unfold run. cbn zeta.
  destruct (full_run_main (start home f))
    as [| | | | |ext fl nc msg Hl Hf Hr Hm Hrule Hw| |]; try done.
  intros _. exists ext, (data fl), nc.
  destruct (rule_applied_legacy _ _ _ Hrule) as [H1 H2].
  split_and!; try done.
  - unfold text_at. cbn [fs start] in Hf. by rewrite Hf.
  - apply text_at_store.
Qed.

Lemma legacy_lines_after_patch_witness :
  ∃ ext content new_content,
    located sample_home (sample_fs Full.old_line_v2) = Some ext ∧
    text_at (sample_fs Full.old_line_v2) (Full.target_file ext)
    = Some content ∧
    text_at (fs (run Full.main sample_home (sample_fs Full.old_line_v2)).2)
      (Full.target_file ext) = Some new_content ∧
    contains new_content Full.old_line_v1 = false ∧
    (contains new_content Full.old_line_v2 = true ↔
     contains content Full.old_line_v1 = true ∧
     contains content Full.old_line_v2 = true).
Proof.
  apply (legacy_lines_after_patch sample_home (sample_fs Full.old_line_v2)).
  vm_compute. reflexivity.
Defined.

(** X8. A file that holds both legacy lines is patched for the v1 line only
    and then stays so: after one run and after any number of further runs
    the file holds the content with the v1 line replaced, in which the v2
    legacy line still occurs, and a further run reports that the file is
    already patched. *)
Theorem v2_line_is_never_patched (home : string) (f : filesystem)
    (ext : string) (fl : file) (n : nat) :
  located home f = Some ext →
  files f !! Full.target_file ext = Some fl →
  on_read fl = Readable →
  on_write fl = Writable →
  contains (data fl) Full.patched_marker = false →
  contains (data fl) Full.old_line_v1 = true →
  contains (data fl) Full.old_line_v2 = true →
  let patched := replace (data fl) Full.old_line_v1 Full.new_line_v1 in
  text_at (fs_after (S n) home f) (Full.target_file ext) = Some patched ∧
  contains patched Full.old_line_v2 = true ∧
  run Full.main home (fs_after (S n) home f)
  = (Exited 0,
     printed (start home (fs_after (S n) home f))
       ["arduinoContentProvider.js is already patched."]).
Proof.
  intros Hl Hf Hr Hw Hm H1 H2. cbn zeta.
  set (patched := replace (data fl) Full.old_line_v1 Full.new_line_v1).
  set (g := Os.store f (Full.target_file ext) (Os.set_data fl patched)).
  assert (fs (run Full.main home f).2 = g) as Hg.
  { unfold run.
    rewrite (main_rule_applied (start home f) ext fl _ _ Hl Hf Hr Hm
               (rule_v1 _ H1)), Hw. done. }
  assert (contains patched Full.patched_marker = true) as Hpm
    by (by apply replace_v1_has_marker).
  assert (fs_after (S n) home f = g) as ->.
  { rewrite fs_after_S, Hg.
    apply (marked_file_stays home g ext (Os.set_data fl patched)); try done.
    apply lookup_store. }
  split_and!.
  - apply text_at_store.
  - by apply v2_survives_v1_rule.
  - unfold run.
    apply (main_already_patched (start home g) ext (Os.set_data fl patched));
      try done.
    apply lookup_store.
Qed.

Lemma v2_line_is_never_patched_witness :
  text_at (fs_after 3 sample_home (sample_fs both_lines))
    (Full.target_file sample_ext)
  = Some (Full.new_line_v1 +:+ ";" +:+ Full.old_line_v2).
Proof.
  refine (proj1 (v2_line_is_never_patched sample_home (sample_fs both_lines)
                   sample_ext (File both_lines Readable Writable) 2
                   _ _ _ _ _ _ _));
    vm_compute; reflexivity.
Defined.





(** X11. The minimal script has no already-patched test, yet a second run
    does nothing: after a run that has replaced the old line, the old line
    no longer occurs in the file, and the second run prints that the target
    string was not found, opens nothing for writing and leaves the file
    system as it is. *)
Theorem minimal_second_run_finds_nothing (home : string) (f : filesystem)
    (fl : file) :
  files f !! Minimal.file_path = Some fl →
  on_read fl = Readable →
  on_write fl = Writable →
  contains (data fl) Minimal.old_line = true →
  let r1 := run Minimal.script home f in
  let r2 := run Minimal.script home (fs r1.2) in
  stdout r1.2 = ["Successfully patched arduinoContentProvider.js"] ∧
  text_at (fs r1.2) Minimal.file_path
  = Some (replace (data fl) Minimal.old_line Minimal.new_line) ∧
  r2 = (Done (),
        printed (start home (fs r1.2))
          ["Could not find target string to replace"]).
Proof.
  intros Hf Hr Hw Ho. unfold run. cbn zeta.
  rewrite (minimal_found (start home f) fl Hf Hr Ho), Hw.
  cbn [snd written fs start stdout app]. split_and!.
  - done.
  - apply text_at_store.
  - apply (minimal_not_found _ (Os.set_data fl
             (replace (data fl) Minimal.old_line Minimal.new_line))).
    + apply lookup_store.
    + done.
    + cbn [data Os.set_data]. apply contains_false, replace_leaves_none;
        [apply old_line_v2_nonempty | by vm_compute..].
Qed.

Lemma minimal_second_run_finds_nothing_witness :
  run Minimal.script sample_home
    (fs (run Minimal.script sample_home (sample_fs both_lines)).2)
  = (Done (),
     printed
       (start sample_home
          (fs (run Minimal.script sample_home (sample_fs both_lines)).2))
       ["Could not find target string to replace"]).
Proof.
  refine (proj2 (proj2
            (minimal_second_run_finds_nothing sample_home
               (sample_fs both_lines) (File both_lines Readable Writable)
               _ _ _ _)));
    vm_compute; reflexivity.
Defined.



(** X13. The minimal script reports through standard output only: it ends
    with status 0 both when it has patched the file and when it has not
    found the old line, printing one line; it ends with status 1, having
    printed nothing, exactly when the file is not there, when reading
    raises, or when the old line occurs and writing raises. *)
Theorem minimal_exit_status (home : string) (f : filesystem) :
  let r := run Minimal.script home f in
  (exit_status r = 0 ∨ exit_status r = 1) ∧
  (exit_status r = 1 ↔
   files f !! Minimal.file_path = None ∨
   ∃ fl, files f !! Minimal.file_path = Some fl ∧
         (on_read fl ≠ Readable ∨
          on_read fl = Readable ∧
          contains (data fl) Minimal.old_line = true ∧
          on_write fl ≠ Writable)) ∧
  (exit_status r = 1 → stdout r.2 = []) ∧
  (exit_status r = 0 → ∃ line, stdout r.2 = [line]).
Proof.
  unfold run. cbn zeta.
  destruct (files f !! Minimal.file_path) as [fl|] eqn:Hf.
  2: { rewrite minimal_unreadable by (by left).
       cbn [exit_status fst snd stdout start]. naive_solver. }
  destruct (on_read fl) as [|e] eqn:Hr.
  2: { rewrite minimal_unreadable by (right; by exists fl, e).
       cbn [exit_status fst snd stdout start].
       split_and!; [by right| |done|done].
       split; [|done]. intros _. right. exists fl. split; [done|].
       left. congruence. }
  destruct (contains (data fl) Minimal.old_line) eqn:Ho.
  - rewrite (minimal_found (start home f) fl Hf Hr Ho).
    destruct (on_write fl) eqn:Hw;
      cbn [exit_status fst snd stdout written printed start app].
    + split_and!; [by left| |done|by eexists].
      split; [done|]. intros [?|(fl' & ? & [?|(_ & _ & ?)])]; congruence.
    + split_and!; [by right| |done|done].
      split; [|done]. intros _. right. exists fl. split; [done|]. right.
      split_and!; [done..|congruence].
    + split_and!; [by right| |done|done].
      split; [|done]. intros _. right. exists fl. split; [done|]. right.
      split_and!; [done..|congruence].
  - rewrite (minimal_not_found (start home f) fl Hf Hr Ho).
    cbn [exit_status fst snd stdout written printed start app].
    split_and!; [by left| |done|by eexists].
    split; [done|].
    intros [?|(fl' & ? & [?|(_ & ? & _)])]; congruence.
Qed.

Lemma minimal_exit_status_witness :
  exit_status (run Minimal.script sample_home empty_fs) = 1.
Proof.
  apply (proj1 (proj2 (minimal_exit_status sample_home empty_fs))).
  left. vm_compute. reflexivity.
Defined.
